(** * rmdup: a shallow embedding of [rmdup.py] and its properties

    The script decides whether a duplicate candidate (a file or a
    directory tree) can be removed because everything in it is also found
    at an original location, and removes it only then.

    Model of the environment:
    - a path is the list of its segments from the filesystem root;
    - the filesystem is a tree of [node]s; a directory lists its entries
      in the order [os.listdir] returns them; every node carries the
      identity fields of its [os.stat] result and a read permission bit
      ([open] and [os.listdir] fail without it, [os.stat] does not);
    - the Python 2 exceptions that matter are [OSError], [IOError] and
      the script's own [NotDuplicate];
    - code runs in a state and exception monad [M] over the filesystem
      and a trace of the I/O calls made (stat, listdir, open, read,
      print, remove).  Symbolic links are not modelled. *)

From Stdlib Require Import List String Ascii Bool ZArith Lia.
From Stdlib Require Import Init.Byte.
From Stdlib Require Import Sorting.Sorted Sorting.Permutation.
Import ListNotations.

(* ------------------------------------------------------------------ *)
(** ** Filesystem *)

Definition path := list string.

Record stat_result := mk_stat {
  st_ino : Z;
  st_dev : Z;
  st_size : Z;
  st_mtime : Z
}.

Definition stat_eqb (a b : stat_result) : bool :=
  Z.eqb (st_ino a) (st_ino b) && Z.eqb (st_dev a) (st_dev b)
  && Z.eqb (st_size a) (st_size b) && Z.eqb (st_mtime a) (st_mtime b).

#[warnings="-register-all"]
Inductive node :=
| File (ino dev mtime : Z) (readable : bool) (data : list byte)
| Dir (ino dev mtime : Z) (readable : bool) (entries : list (string * node)).

(** Induction over nodes, with a hypothesis for every entry of a directory. *)
Fixpoint node_ind' (P : node -> Prop)
    (Hfile : forall i d m r data, P (File i d m r data))
    (Hdir : forall i d m r es, Forall (fun e => P (snd e)) es -> P (Dir i d m r es))
    (n : node) {struct n} : P n :=
  match n with
  | File i d m r data => Hfile i d m r data
  | Dir i d m r es =>
      Hdir i d m r es
        ((fix go (es : list (string * node)) : Forall (fun e => P (snd e)) es :=
            match es with
            | [] => Forall_nil _
            | e :: rest => Forall_cons e (node_ind' P Hfile Hdir (snd e)) (go rest)
            end) es)
  end.

(** Size a directory reports through [os.stat]. *)
Definition DIR_SIZE : Z := 4096.

Definition stat_of (n : node) : stat_result :=
  match n with
  | File i d m _ data => mk_stat i d (Z.of_nat (List.length data)) m
  | Dir i d m _ _ => mk_stat i d DIR_SIZE m
  end.

Fixpoint find_entry (name : string) (es : list (string * node)) : option node :=
  match es with
  | [] => None
  | (k, c) :: rest => if String.eqb k name then Some c else find_entry name rest
  end.

(** Path resolution: descending through a file fails (ENOTDIR). *)
Fixpoint lookup (p : path) (n : node) : option node :=
  match p with
  | [] => Some n
  | s :: rest =>
      match n with
      | File _ _ _ _ _ => None
      | Dir _ _ _ _ es =>
          match find_entry s es with
          | Some c => lookup rest c
          | None => None
          end
      end
  end.

Fixpoint drop_entry (name : string) (es : list (string * node)) : list (string * node) :=
  match es with
  | [] => []
  | (k, c) :: rest =>
      if String.eqb k name then drop_entry name rest else (k, c) :: drop_entry name rest
  end.

Fixpoint replace_entry (name : string) (c' : node) (es : list (string * node))
  : list (string * node) :=
  match es with
  | [] => []
  | (k, c) :: rest =>
      if String.eqb k name then (k, c') :: rest else (k, c) :: replace_entry name c' rest
  end.

(** Unlinking the entry at a path; [None] when there is nothing to unlink
    (the root itself cannot be unlinked). *)
Fixpoint unlink (p : path) (n : node) : option node :=
  match p, n with
  | [], _ => None
  | _, File _ _ _ _ _ => None
  | [name], Dir i d m r es =>
      match find_entry name es with
      | Some _ => Some (Dir i d m r (drop_entry name es))
      | None => None
      end
  | s :: rest, Dir i d m r es =>
      match find_entry s es with
      | Some c =>
          match unlink rest c with
          | Some c' => Some (Dir i d m r (replace_entry s c' es))
          | None => None
          end
      | None => None
      end
  end.

(* ------------------------------------------------------------------ *)
(** ** Results, exceptions and the I/O monad *)

(** The explanations [not_duplicate_*_reason] and [process_duplicate]
    format into strings, one constructor per format string. *)
Inductive reason :=
| RSameFile (f1 f2 : path)        (* '"{0}" and "{1}" are referencing the same file' *)
| RFilesDiffer (f1 f2 : path)     (* 'files "{0}" and "{1}" differ' *)
| RSameDir (d1 d2 : path)         (* '"{0}" and "{1}" are referencing the same directory' *)
| RExtraFiles (fs : list path)    (* 'duplicate candidate contains extra non-duplicate file[s]: {0}' *)
| RSizesDiffer (f1 f2 : path)     (* 'sizes of files "{0}" and "{1}" differ' *)
| RNotExist (p : path).           (* '"{0}" does not exist' *)

Inductive exn :=
| OSError
| IOError
| NotDuplicate (orig duplicate : path) (why : reason).

Inductive message :=
| MsgSizesMatch                   (* 'sizes match, comparing content' *)
| MsgRemoving (p : path)          (* 'removing {0}' *)
| MsgWouldRemove (p : path).      (* 'in non dry-run mode, "{0}" would be removed' *)

Inductive event :=
| EvStat (p : path)
| EvListdir (p : path)
| EvOpen (p : path)
| EvRead (p : path)
| EvPrint (m : message)
| EvRemove (p : path).

Record state := mk_state { fs : node; trace : list event }.

Inductive res (A : Type) :=
| Ok (a : A)
| Raise (e : exn).
Arguments Ok {A} a.
Arguments Raise {A} e.

Definition M (A : Type) := state -> state * res A.

Definition ret {A} (a : A) : M A := fun s => (s, Ok a).

Definition bind {A B} (m : M A) (k : A -> M B) : M B :=
  fun s => match m s with
           | (s', Ok a) => k a s'
           | (s', Raise e) => (s', Raise e)
           end.

Definition raise {A} (e : exn) : M A := fun s => (s, Raise e).

Declare Scope io_scope.
Delimit Scope io_scope with io.
Notation "x <- m ;; k" := (bind m (fun x => k))
  (at level 61, m at next level, right associativity) : io_scope.
Notation "m ;; k" := (bind m (fun _ => k))
  (at level 61, right associativity) : io_scope.
Open Scope io_scope.

Definition emit (ev : event) : M unit :=
  fun s => (mk_state (fs s) (trace s ++ [ev]), Ok tt).

Definition get_fs : M node := fun s => (s, Ok (fs s)).

(** [try: m except OSError: h] *)
Definition except_oserror {A} (m : M A) (h : M A) : M A :=
  fun s => match m s with
           | (s', Raise OSError) => h s'
           | r => r
           end.

(* ------------------------------------------------------------------ *)
(** ** The [os] and file primitives *)

Definition os_stat (p : path) : M stat_result :=
  emit (EvStat p);;
  root <- get_fs;;
  match lookup p root with
  | Some n => ret (stat_of n)
  | None => raise OSError
  end.

Definition getsize (p : path) : M Z :=
  st <- os_stat p;; ret (st_size st).

Definition os_path_exists (p : path) : M bool :=
  except_oserror (os_stat p;; ret true) (ret false).

Definition os_path_isdir (p : path) : M bool :=
  except_oserror
    (os_stat p;;
     root <- get_fs;;
     match lookup p root with
     | Some (Dir _ _ _ _ _) => ret true
     | _ => ret false
     end)
    (ret false).

(** An open file object: its path and the bytes not read yet. *)
Record handle := mk_handle { h_path : path; h_rest : list byte }.

Definition open_rb (p : path) : M handle :=
  emit (EvOpen p);;
  root <- get_fs;;
  match lookup p root with
  | Some (File _ _ _ true data) => ret (mk_handle p data)
  | _ => raise IOError
  end.

Fixpoint take_z (n : Z) (l : list byte) : list byte :=
  match l with
  | [] => []
  | x :: rest => if Z.leb n 0 then [] else x :: take_z (n - 1) rest
  end.

Fixpoint drop_z (n : Z) (l : list byte) : list byte :=
  match l with
  | [] => []
  | _ :: rest => if Z.leb n 0 then l else drop_z (n - 1) rest
  end.

(** [file.read(n)]: at most [n] bytes; a negative [n] reads to the end. *)
Definition file_read (h : handle) (n : Z) : M (list byte * handle) :=
  emit (EvRead (h_path h));;
  if Z.ltb n 0 then ret (h_rest h, mk_handle (h_path h) [])
  else ret (take_z n (h_rest h), mk_handle (h_path h) (drop_z n (h_rest h))).

(** The block [file.read(n)] returns and the file object after it. *)
Definition read_result (h : handle) (n : Z) : list byte * handle :=
  if Z.ltb n 0 then (h_rest h, mk_handle (h_path h) [])
  else (take_z n (h_rest h), mk_handle (h_path h) (drop_z n (h_rest h))).

(* ------------------------------------------------------------------ *)
(** ** [same_file_or_dir], [same_size], [same_content] *)

(** [os.stat(path1) == os.stat(path2)], [False] on [OSError]. *)
Definition same_file_or_dir (path1 path2 : path) : M bool :=
  except_oserror
    (s1 <- os_stat path1;;
     s2 <- os_stat path2;;
     ret (stat_eqb s1 s2))
    (ret false).

Definition READ_BUFFER_SIZE : Z := 100 * 1024 ^ 2.

Definition _read_block (file : handle) : M (list byte * handle) :=
  file_read file READ_BUFFER_SIZE.

Definition same_size (fname1 fname2 : path) : M bool :=
  except_oserror
    (z1 <- getsize fname1;;
     z2 <- getsize fname2;;
     if negb (Z.eqb z1 z2) then ret false else ret true)
    (ret false).

Fixpoint bytes_eqb (a b : list byte) : bool :=
  match a, b with
  | [], [] => true
  | x :: a', y :: b' => Byte.eqb x y && bytes_eqb a' b'
  | _, _ => false
  end.

(** The [while buff1:] loop of [same_content].  It is given one more round
    than the first file has bytes, which is all it can take for a reader
    that consumes the block it returns, as [file.read(n)] does. *)
Fixpoint compare_blocks (fuel : nat)
    (read_block : handle -> M (list byte * handle)) (f1 f2 : handle) : M bool :=
  match fuel with
  | O => ret true
  | S fuel' =>
      r1 <- read_block f1;;
      r2 <- read_block f2;;
      let '(buff1, f1') := r1 in
      let '(buff2, f2') := r2 in
      if negb (bytes_eqb buff1 buff2) then ret false
      else match buff1 with
           | [] => ret true
           | _ => compare_blocks fuel' read_block f1' f2'
           end
  end.

Definition same_content_with (read_block : handle -> M (list byte * handle))
    (fname1 fname2 : path) : M bool :=
  ok <- same_size fname1 fname2;;
  if negb ok then ret false
  else
    f1 <- open_rb fname1;;
    f2 <- open_rb fname2;;
    compare_blocks (S (List.length (h_rest f1))) read_block f1 f2.

Definition same_content (fname1 fname2 : path) : M bool :=
  same_content_with _read_block fname1 fname2.

Definition not_duplicate_file_reason (fname1 fname2 : path) : M (option reason) :=
  same <- same_file_or_dir fname1 fname2;;
  if same then ret (Some (RSameFile fname1 fname2))
  else
    c <- same_content fname1 fname2;;
    if negb c then ret (Some (RFilesDiffer fname1 fname2))
    else ret None.

(* ------------------------------------------------------------------ *)
(** ** The skip path tree *)

(** A Python dict of dicts; keys keep their insertion position. *)
#[warnings="-register-all"]
Inductive skip_tree := SNode (children : list (string * skip_tree)).

Definition empty_tree : skip_tree := SNode [].

(** [tree.get(key, {})] *)
Definition tree_get (t : skip_tree) (key : string) : skip_tree :=
  let '(SNode cs) := t in
  match find (fun kv => String.eqb (fst kv) key) cs with
  | Some (_, c) => c
  | None => empty_tree
  end.

Fixpoint set_child (key : string) (v : skip_tree) (cs : list (string * skip_tree))
  : list (string * skip_tree) :=
  match cs with
  | [] => [(key, v)]
  | (k, c) :: rest =>
      if String.eqb k key then (k, v) :: rest else (k, c) :: set_child key v rest
  end.

(** [tree[key] = v] *)
Definition tree_set (t : skip_tree) (key : string) (v : skip_tree) : skip_tree :=
  let '(SNode cs) := t in SNode (set_child key v cs).

Definition tree_has (t : skip_tree) (key : string) : bool :=
  let '(SNode cs) := t in existsb (fun kv => String.eqb (fst kv) key) cs.

Definition tree_len (t : skip_tree) : nat :=
  let '(SNode cs) := t in List.length cs.

(** [str.split(sep)]: [""] gives [[""]], a trailing separator an empty last part. *)
Fixpoint split_on (sep : ascii) (s : string) : list string :=
  match s with
  | EmptyString => [EmptyString]
  | String c rest =>
      let parts := split_on sep rest in
      if Ascii.eqb c sep then EmptyString :: parts
      else match parts with
           | p :: ps => String c p :: ps
           | [] => [String c EmptyString]
           end
  end.

Definition os_path_sep : ascii := "/"%char.

(** The inner loop of [_make_skip_path_tree] for one skip path: walk down
    [tree[path] = tree.get(path, {}); tree = tree[path]] and [tree.clear()]
    the node reached.  Each node is owned by its parent only, so the
    in-place updates of the dicts are the rebuilt path below. *)
Fixpoint insert_skip_path (segments : list string) (tree : skip_tree) : skip_tree :=
  match segments with
  | [] => empty_tree
  | seg :: rest => tree_set tree seg (insert_skip_path rest (tree_get tree seg))
  end.

(** [path_list or []] is the list itself here: [None] is passed as [[]]. *)
Definition _make_skip_path_tree (path_list : list string) : skip_tree :=
  fold_left (fun t skip_path => insert_skip_path (split_on os_path_sep skip_path) t)
    path_list empty_tree.

(* ------------------------------------------------------------------ *)
(** ** Listing files *)

(** [os.listdir] on a node. *)
Definition listdir_node (directory : path) (n : node) : M (list (string * node)) :=
  emit (EvListdir directory);;
  match n with
  | Dir _ _ _ true es => ret es
  | _ => raise OSError
  end.

(** [_files_in], by recursion on the directory node at [directory]; the
    generator is drained by its only callers ([set(...)]), so it returns
    the list of full paths it yields, in order. *)
Fixpoint _files_in_node (directory : path) (n : node) (skip_path_tree : skip_tree)
  : M (list path) :=
  match n with
  | File _ _ _ _ _ => listdir_node directory n;; ret []
  | Dir _ _ _ _ es =>
      listdir_node directory n;;
      (fix go (es : list (string * node)) : M (list path) :=
         match es with
         | [] => ret []
         | (name, c) :: rest =>
             if tree_has skip_path_tree name && Nat.eqb 0 (tree_len (tree_get skip_path_tree name))
             then go rest
             else
               let full_path := directory ++ [name] in
               match c with
               | Dir _ _ _ _ _ =>
                   fs1 <- _files_in_node full_path c (tree_get skip_path_tree name);;
                   fs2 <- go rest;;
                   ret (fs1 ++ fs2)
               | File _ _ _ _ _ =>
                   fs2 <- go rest;;
                   ret (full_path :: fs2)
               end
         end) es
  end.

Definition _files_in (directory : path) (skip_path_tree : skip_tree) : M (list path) :=
  root <- get_fs;;
  match lookup directory root with
  | Some n => _files_in_node directory n skip_path_tree
  | None => emit (EvListdir directory);; raise OSError
  end.

(** [os.path.relpath(f, directory)] for [f] below [directory]. *)
Definition relpath (f directory : path) : path := skipn (List.length directory) f.

Definition files_in (directory : path) (skip_paths : list string) : M (list path) :=
  fs0 <- _files_in directory (_make_skip_path_tree skip_paths);;
  ret (map (fun f => relpath f directory) fs0).

(* ------------------------------------------------------------------ *)
(** ** Sets of relative paths *)

Definition path_eqb (a b : path) : bool :=
  (fix go (a b : list string) : bool :=
     match a, b with
     | [], [] => true
     | x :: a', y :: b' => String.eqb x y && go a' b'
     | _, _ => false
     end) a b.

Definition path_mem (f : path) (l : list path) : bool := existsb (path_eqb f) l.

(** [set(xs)]; its iteration order is taken to be the listing order. *)
Fixpoint py_set (xs : list path) : list path :=
  match xs with
  | [] => []
  | x :: rest => if path_mem x rest then py_set rest else x :: py_set rest
  end.

(** [a - b] on sets. *)
Definition set_minus (a b : list path) : list path :=
  filter (fun f => negb (path_mem f b)) a.

(** [sorted(...)] of relative path strings (joined by the separator). *)
Definition path_str (p : path) : string := String.concat "/" p.

Fixpoint insert_sorted (x : path) (l : list path) : list path :=
  match l with
  | [] => [x]
  | y :: rest => if String.leb (path_str y) (path_str x) then y :: insert_sorted x rest
                 else x :: l
  end.

Definition sorted (l : list path) : list path := fold_right insert_sorted [] l.

(* ------------------------------------------------------------------ *)
(** ** [not_duplicate_dir_reason] *)

(** [for f in possible_duplicate_files: ... if not same_size(...): return ...] *)
Fixpoint first_size_mismatch (directory duplicate_candidate : path) (files : list path)
  : M (option reason) :=
  match files with
  | [] => ret None
  | f :: rest =>
      let fname := directory ++ f in
      let candidate_fname := duplicate_candidate ++ f in
      ok <- same_size fname candidate_fname;;
      if negb ok then ret (Some (RSizesDiffer fname candidate_fname))
      else first_size_mismatch directory duplicate_candidate rest
  end.

(** [for f in possible_duplicate_files: ... if not same_content(...): return ...] *)
Fixpoint first_content_mismatch (directory duplicate_candidate : path) (files : list path)
  : M (option reason) :=
  match files with
  | [] => ret None
  | f :: rest =>
      let fname := directory ++ f in
      let candidate_fname := duplicate_candidate ++ f in
      ok <- same_content fname candidate_fname;;
      if negb ok then ret (Some (RFilesDiffer fname candidate_fname))
      else first_content_mismatch directory duplicate_candidate rest
  end.

Definition not_duplicate_dir_reason (directory duplicate_candidate : path)
    (ignored_differences : list string) : M (option reason) :=
  same <- same_file_or_dir directory duplicate_candidate;;
  if same then ret (Some (RSameDir directory duplicate_candidate))
  else
    cand <- files_in duplicate_candidate ignored_differences;;
    let possible_duplicate_files := py_set cand in
    orig <- files_in directory [];;
    let extra_files := set_minus possible_duplicate_files (py_set orig) in
    match extra_files with
    | _ :: _ => ret (Some (RExtraFiles (sorted extra_files)))
    | [] =>
        r <- first_size_mismatch directory duplicate_candidate possible_duplicate_files;;
        match r with
        | Some _ => ret r
        | None =>
            emit (EvPrint MsgSizesMatch);;
            first_content_mismatch directory duplicate_candidate possible_duplicate_files
        end
    end.

(* ------------------------------------------------------------------ *)
(** ** Removal *)

(** [shutil.rmtree(path)] / [os.remove(path)]: the entry disappears. *)
Definition unlink_path (p : path) : M unit :=
  emit (EvRemove p);;
  fun s => match unlink p (fs s) with
           | Some root' => (mk_state root' (trace s), Ok tt)
           | None => (s, Raise OSError)
           end.

Definition remove_file_or_dir (p : path) : M unit :=
  isdir <- os_path_isdir p;;
  emit (EvPrint (MsgRemoving p));;
  if isdir then unlink_path p else unlink_path p.

Definition print_duplicate (p : path) : M unit :=
  emit (EvPrint (MsgWouldRemove p)).

Definition process_duplicate (orig duplicate : path) (ignored_differences : list string)
    (process : path -> M unit) : M unit :=
  ex <- os_path_exists duplicate;;
  if negb ex then raise (NotDuplicate orig duplicate (RNotExist duplicate))
  else
    isdir <- os_path_isdir duplicate;;
    reason_not_duplicate <-
      (if isdir then not_duplicate_dir_reason orig duplicate ignored_differences
       else not_duplicate_file_reason orig duplicate);;
    match reason_not_duplicate with
    | None => process duplicate
    | Some r => raise (NotDuplicate orig duplicate r)
    end.

(** Whether [open(p, 'rb')] succeeds on the node at [p]. *)
Definition openable (n : node) : bool :=
  match n with
  | File _ _ _ true _ => true
  | _ => false
  end.

(* ------------------------------------------------------------------ *)
(** ** The script's entry point

    [mkparser().parse_args()] gives [main], [duplicate], the list
    [ignored_differences] and [duplicate_processor]: [print_duplicate]
    with [-n]/[--dry-run] ([action='store_const']), [remove_file_or_dir]
    otherwise.  The [__main__] block runs [process_duplicate] with them
    and catches [NotDuplicate]: [Reported] is its [print e]; any other
    exception leaves the script ([Crashed]). *)
Inductive outcome :=
| Finished
| Reported (orig duplicate : path) (why : reason)
| Crashed (e : exn).

Definition duplicate_processor (dry_run : bool) : path -> M unit :=
  if dry_run then print_duplicate else remove_file_or_dir.

Definition main (orig duplicate : path) (ignored_differences : list string)
    (dry_run : bool) (s : state) : state * outcome :=
  match process_duplicate orig duplicate ignored_differences
          (duplicate_processor dry_run) s with
  | (s', Ok _) => (s', Finished)
  | (s', Raise (NotDuplicate o d why)) => (s', Reported o d why)
  | (s', Raise e) => (s', Crashed e)
  end.

(* ------------------------------------------------------------------ *)
(** ** Concrete filesystems *)

Local Open Scope string_scope.
Local Open Scope list_scope.

Definition file_of (ino : Z) (content : string) : node :=
  File ino 1 0 true (list_byte_of_string content).

(** A file whose read permission is missing. *)
Definition unreadable_file_of (ino : Z) (content : string) : node :=
  File ino 1 0 false (list_byte_of_string content).

Definition dir_of (ino : Z) (es : list (string * node)) : node := Dir ino 1 0 true es.

Definition at_root (root : node) : state := mk_state root [].

(** An original file and no candidate. *)
Definition fs_missing_candidate : node :=
  dir_of 1 [("orig", file_of 2 "asd")].

(** Two files of the same size, the second one unreadable. *)
Definition fs_unreadable : node :=
  dir_of 1 [("f1", file_of 2 "asd"); ("f2", unreadable_file_of 3 "asd")].

(** A candidate tree with an extra file below [d]. *)
Definition fs_extra_below_d : node :=
  dir_of 1
    [("directory", dir_of 2 [("file", file_of 3 "")]);
     ("candidate_dir",
       dir_of 4 [("file", file_of 5 "");
                 ("d", dir_of 6 [("x", file_of 7 ""); ("extra", file_of 8 "z")])])].

(** Two files with the same content. *)
Definition fs_dup_files : node := dir_of 1 [("1", file_of 2 "asd"); ("2", file_of 3 "asd")].

(** Two directories holding a file of the same name and different sizes. *)
Definition fs_size_mismatch : node :=
  dir_of 1 [("directory", dir_of 2 [("f", file_of 3 "a")]);
            ("candidate_dir", dir_of 4 [("f", file_of 5 "ab")])].

(** Two directories holding the same file. *)
Definition fs_dup_dirs : node :=
  dir_of 1 [("directory", dir_of 2 [("f", file_of 3 "asd")]);
            ("candidate_dir", dir_of 4 [("f", file_of 5 "asd")])].

(** One empty directory. *)
Definition fs_one_empty_dir : node := dir_of 1 [("d", dir_of 2 [])].

(** Two distinct empty directories. *)
Definition fs_two_empty_dirs : node :=
  dir_of 1 [("directory", dir_of 2 []); ("candidate_dir", dir_of 3 [])].

Local Close Scope string_scope.

(* ------------------------------------------------------------------ *)
(** ** Notions used to state properties of the code *)

(** [tree[s1][s2]...]: following keys down the skip path tree. *)
Fixpoint tree_walk (segs : list string) (t : skip_tree) : option skip_tree :=
  match segs with
  | [] => Some t
  | s :: rest => if tree_has t s then tree_walk rest (tree_get t s) else None
  end.

(** Whether [_files_in], walking down to the relative path [f], drops it
    or a directory on the way with its leaf test
    [path in skip_path_tree and 0 == len(skip_path_tree[path])]. *)
Fixpoint skipped_by (t : skip_tree) (f : path) : bool :=
  match f with
  | [] => false
  | s :: rest =>
      (tree_has t s && Nat.eqb 0 (tree_len (tree_get t s))) || skipped_by (tree_get t s) rest
  end.

(** The names in a directory listing are distinct. *)
Fixpoint keys_unique (es : list (string * node)) : bool :=
  match es with
  | [] => true
  | (k, _) :: rest => negb (existsb (fun kv => String.eqb (fst kv) k) rest) && keys_unique rest
  end.

(** Every directory of the tree has distinct entry names. *)
Fixpoint names_unique (n : node) : bool :=
  match n with
  | File _ _ _ _ _ => true
  | Dir _ _ _ _ es =>
      keys_unique es &&
      (fix go (es : list (string * node)) : bool :=
         match es with
         | [] => true
         | (_, c) :: rest => names_unique c && go rest
         end) es
  end.

Definition is_regular_file (o : option node) : bool :=
  match o with Some (File _ _ _ _ _) => true | _ => false end.

(** What [_files_in_node] returns, without its I/O: [None] where it
    raises [OSError]. *)
Fixpoint files_pure (directory : path) (n : node) (skip_path_tree : skip_tree)
  : option (list path) :=
  match n with
  | File _ _ _ _ _ => None
  | Dir _ _ _ false _ => None
  | Dir _ _ _ true es =>
      (fix go (es : list (string * node)) : option (list path) :=
         match es with
         | [] => Some []
         | (name, c) :: rest =>
             if tree_has skip_path_tree name && Nat.eqb 0 (tree_len (tree_get skip_path_tree name))
             then go rest
             else
               let full_path := directory ++ [name] in
               match c with
               | Dir _ _ _ _ _ =>
                   match files_pure full_path c (tree_get skip_path_tree name) with
                   | Some fs1 => match go rest with
                                 | Some fs2 => Some (fs1 ++ fs2)
                                 | None => None
                                 end
                   | None => None
                   end
               | File _ _ _ _ _ =>
                   match go rest with
                   | Some fs2 => Some (full_path :: fs2)
                   | None => None
                   end
               end
         end) es
  end.

(** [a] is a prefix of [b]. *)
Fixpoint path_prefix (a b : path) : bool :=
  match a, b with
  | [], _ => true
  | x :: a', y :: b' => String.eqb x y && path_prefix a' b'
  | _ :: _, [] => false
  end.

Local Open Scope string_scope.

(** Two directories with the same file, and an unreadable directory
    below the candidate. *)
Definition fs_skip_unreadable : node :=
  dir_of 1 [("directory", dir_of 2 [("f", file_of 3 "asd")]);
            ("candidate_dir", dir_of 4 [("f", file_of 5 "asd");
                                        ("locked", Dir 6 1 0 false [])])].

(** A directory [c] holding an empty directory [x]. *)
Definition fs_orig_inside : node :=
  dir_of 1 [("c", dir_of 2 [("x", dir_of 3 [])])].

Local Close Scope string_scope.

(* ------------------------------------------------------------------ *)
(** ** Read-only computations

    [observer m]: running [m] leaves the filesystem as it is, appends to
    the trace what it appends from an empty trace, and its result does
    not depend on the trace: [m] only looks at the filesystem. *)

Definition observer {A} (m : M A) : Prop :=
  forall root tr,
    m (mk_state root tr)
    = (mk_state root (tr ++ trace (fst (m (mk_state root [])))),
       snd (m (mk_state root []))).

Lemma ret_observer {A} (a : A) : observer (ret a).
Proof. intros root tr. cbn. now rewrite app_nil_r. Qed.

Lemma raise_observer {A} (e : exn) : observer (@raise A e).
Proof. intros root tr. cbn. now rewrite app_nil_r. Qed.

Lemma emit_observer (ev : event) : observer (emit ev).
Proof. intros root tr. reflexivity. Qed.

Lemma get_fs_observer : observer get_fs.
Proof. intros root tr. cbn. now rewrite app_nil_r. Qed.

Lemma observer_empty {A} (m : M A) root :
  observer m ->
  m (mk_state root []) = (mk_state root (trace (fst (m (mk_state root [])))),
                          snd (m (mk_state root []))).
Proof. intros H. exact (H root []). Qed.

Lemma bind_observer {A B} (m : M A) (k : A -> M B) :
  observer m -> (forall a, observer (k a)) -> observer (bind m k).
Proof.
  intros Hm Hk root tr. unfold bind.
  rewrite (Hm root tr).
  pose proof (observer_empty m root Hm) as E0.
  destruct (m (mk_state root [])) as [s1 r1]. cbn in E0 |- *.
  injection E0 as Es1. rewrite Es1.
  destruct r1 as [a | e]; cbn.
  - rewrite (Hk a root (tr ++ trace s1)), (Hk a root (trace s1)). cbn.
    now rewrite app_assoc.
  - reflexivity.
Qed.

Lemma except_oserror_observer {A} (m h : M A) :
  observer m -> observer h -> observer (except_oserror m h).
Proof.
  intros Hm Hh root tr. unfold except_oserror.
  rewrite (Hm root tr).
  pose proof (observer_empty m root Hm) as E0.
  destruct (m (mk_state root [])) as [s1 r1]. cbn in E0 |- *.
  injection E0 as Es1. rewrite Es1.
  destruct r1 as [a | [ | | o d w]]; cbn; try reflexivity.
  rewrite (Hh root (tr ++ trace s1)), (Hh root (trace s1)). cbn.
  now rewrite app_assoc.
Qed.

Create HintDb observer_db.
#[global] Hint Resolve ret_observer raise_observer emit_observer get_fs_observer
  : observer_db.

(** Closes [observer] goals of computations built from the primitives. *)
Ltac observer_step :=
  first
    [ apply ret_observer | apply raise_observer | apply emit_observer
    | apply get_fs_observer
    | apply bind_observer; [ | intro ]
    | apply except_oserror_observer
    | match goal with
      | |- observer (match ?x with _ => _ end) => destruct x
      end ].

Ltac observer_auto := repeat (solve [eauto with observer_db] || observer_step).

Lemma os_stat_observer p : observer (os_stat p).
Proof. unfold os_stat. observer_auto. Qed.
#[global] Hint Resolve os_stat_observer : observer_db.

Lemma getsize_observer p : observer (getsize p).
Proof. unfold getsize. observer_auto. Qed.
#[global] Hint Resolve getsize_observer : observer_db.

Lemma os_path_exists_observer p : observer (os_path_exists p).
Proof. unfold os_path_exists. observer_auto. Qed.

Lemma os_path_isdir_observer p : observer (os_path_isdir p).
Proof. unfold os_path_isdir. observer_auto. Qed.

Lemma open_rb_observer p : observer (open_rb p).
Proof. unfold open_rb. observer_auto. Qed.

Lemma file_read_observer h n : observer (file_read h n).
Proof. unfold file_read. observer_auto. Qed.

Lemma same_file_or_dir_observer p1 p2 : observer (same_file_or_dir p1 p2).
Proof. unfold same_file_or_dir. observer_auto. Qed.

Lemma same_size_observer p1 p2 : observer (same_size p1 p2).
Proof. unfold same_size. observer_auto. Qed.

#[global] Hint Resolve os_path_exists_observer os_path_isdir_observer open_rb_observer
  file_read_observer same_file_or_dir_observer same_size_observer : observer_db.

Lemma compare_blocks_observer fuel read_block f1 f2 :
  (forall h, observer (read_block h)) ->
  observer (compare_blocks fuel read_block f1 f2).
Proof.
  intros Hr. revert f1 f2.
  induction fuel as [|fuel IH]; intros f1 f2; cbn [compare_blocks]; observer_auto.
Qed.

Lemma same_content_with_observer read_block p1 p2 :
  (forall h, observer (read_block h)) ->
  observer (same_content_with read_block p1 p2).
Proof.
  intros Hr. unfold same_content_with. observer_auto.
  now apply compare_blocks_observer.
Qed.

Lemma same_content_observer p1 p2 : observer (same_content p1 p2).
Proof.
  apply same_content_with_observer. intro h. apply file_read_observer.
Qed.
#[global] Hint Resolve same_content_observer : observer_db.

Lemma not_duplicate_file_reason_observer p1 p2 :
  observer (not_duplicate_file_reason p1 p2).
Proof. unfold not_duplicate_file_reason. observer_auto. Qed.

Lemma listdir_node_observer d n : observer (listdir_node d n).
Proof. unfold listdir_node. observer_auto. Qed.
#[global] Hint Resolve listdir_node_observer : observer_db.

Lemma files_in_node_observer : forall n directory t,
  observer (_files_in_node directory n t).
Proof.
  induction n as [i d m r data | i d m r es IHes] using node_ind'; intros directory t;
    cbn [_files_in_node].
  - observer_auto.
  - apply bind_observer; [apply listdir_node_observer | intros _].
    induction IHes as [| [name c] rest IHc IHrest IHgo]; cbn [fst snd] in *.
    + apply ret_observer.
    + destruct (_ && _).
      * exact IHgo.
      * destruct c as [? ? ? ? ? | ? ? ? ? ?].
        -- apply bind_observer; [exact IHgo | intro]. apply ret_observer.
        -- apply bind_observer; [apply IHc | intro].
           apply bind_observer; [exact IHgo | intro]. apply ret_observer.
Qed.
#[global] Hint Resolve files_in_node_observer : observer_db.

Lemma files_in_observer d ps : observer (files_in d ps).
Proof. unfold files_in, _files_in. observer_auto. Qed.
#[global] Hint Resolve files_in_observer : observer_db.

Lemma first_size_mismatch_observer d c files :
  observer (first_size_mismatch d c files).
Proof. induction files; cbn [first_size_mismatch]; observer_auto. Qed.

Lemma first_content_mismatch_observer d c files :
  observer (first_content_mismatch d c files).
Proof. induction files; cbn [first_content_mismatch]; observer_auto. Qed.
#[global] Hint Resolve first_size_mismatch_observer first_content_mismatch_observer
  : observer_db.

Lemma not_duplicate_dir_reason_observer d c ign :
  observer (not_duplicate_dir_reason d c ign).
Proof. unfold not_duplicate_dir_reason. observer_auto. Qed.

Lemma observer_run {A} (m : M A) s :
  observer m ->
  m s = (mk_state (fs s) (trace s ++ trace (fst (m (mk_state (fs s) [])))),
         snd (m (mk_state (fs s) []))).
Proof. intros H. destruct s as [root tr]. apply H. Qed.

Lemma stat_eqb_refl st : stat_eqb st st = true.
Proof. destruct st; unfold stat_eqb; cbn. now rewrite !Z.eqb_refl. Qed.

Lemma bytes_eqb_refl l : bytes_eqb l l = true.
Proof. induction l; cbn; auto. now rewrite (Byte.byte_dec_lb eq_refl), IHl. Qed.

Lemma bind_ok {A B} (m : M A) (k : A -> M B) s s' a :
  m s = (s', Ok a) -> bind m k s = k a s'.
Proof. intros H. unfold bind. now rewrite H. Qed.

Lemma bind_raise {A B} (m : M A) (k : A -> M B) s s' e :
  m s = (s', Raise e) -> bind m k s = (s', Raise e).
Proof. intros H. unfold bind. now rewrite H. Qed.

Lemma file_read_eq h n s :
  file_read h n s = (mk_state (fs s) (trace s ++ [EvRead (h_path h)]), Ok (read_result h n)).
Proof. unfold file_read, read_result, bind, emit. cbn. now destruct (Z.ltb n 0). Qed.

(** Comparing a file handle with a copy of itself: every round compares
    equal blocks. *)
Lemma compare_blocks_self fuel n h s :
  snd (compare_blocks fuel (fun h => file_read h n) h h s) = Ok true.
Proof.
  revert h s. induction fuel as [|fuel IH]; intros h s; [reflexivity|].
  cbn [compare_blocks].
  erewrite bind_ok; [|apply file_read_eq].
  erewrite bind_ok; [|apply file_read_eq].
  destruct (read_result h n) as [blk h'].
  rewrite bytes_eqb_refl; cbn.
  destruct blk; [reflexivity|]. apply IH.
Qed.

Lemma bind_inv_ok {A B} (m : M A) (k : A -> M B) s s' b :
  bind m k s = (s', Ok b) -> exists s1 a, m s = (s1, Ok a) /\ k a s1 = (s', Ok b).
Proof.
  unfold bind. destruct (m s) as [s1 [a | e]]; intros H; [eauto | discriminate].
Qed.

Lemma find_drop_entry name es : find_entry name (drop_entry name es) = None.
Proof.
  induction es as [| [k c] rest IH]; cbn; [reflexivity|].
  destruct (String.eqb k name) eqn:E; cbn; [exact IH|]. now rewrite E.
Qed.

Lemma find_replace_entry name c c' es :
  find_entry name es = Some c -> find_entry name (replace_entry name c' es) = Some c'.
Proof.
  induction es as [| [k c0] rest IH]; cbn; [discriminate|].
  destruct (String.eqb k name) eqn:E; cbn; rewrite E; auto.
Qed.

(** After unlinking a path, nothing is found at it. *)
Lemma unlink_lookup p : forall n n', unlink p n = Some n' -> lookup p n' = None.
Proof.
  induction p as [| seg rest IH]; intros n n' H; [discriminate|].
  destruct n as [? ? ? ? ? | i d m r es]; [destruct rest; discriminate|].
  destruct rest as [| seg2 rest'].
  - cbn in H. destruct (find_entry seg es); [|discriminate].
    injection H as <-. cbn. now rewrite find_drop_entry.
  - change (match find_entry seg es with
            | Some c =>
                match unlink (seg2 :: rest') c with
                | Some c' => Some (Dir i d m r (replace_entry seg c' es))
                | None => None
                end
            | None => None
            end = Some n') in H.
    destruct (find_entry seg es) as [c|] eqn:Ec; [|discriminate].
    destruct (unlink (seg2 :: rest') c) as [c'|] eqn:Eu; [|discriminate].
    injection H as <-. cbn [lookup]. rewrite (find_replace_entry _ _ _ _ Ec).
    exact (IH _ _ Eu).
Qed.

(** A successful [remove_file_or_dir] leaves nothing at the path. *)
Lemma remove_file_or_dir_gone p s s' :
  remove_file_or_dir p s = (s', Ok tt) -> lookup p (fs s') = None.
Proof.
  unfold remove_file_or_dir. intros H.
  apply bind_inv_ok in H as (s1 & isdir & _ & H).
  apply bind_inv_ok in H as (s2 & [] & _ & H).
  assert (Hu : unlink_path p s2 = (s', Ok tt)) by (destruct isdir; exact H).
  unfold unlink_path in Hu. apply bind_inv_ok in Hu as (s3 & [] & _ & Hu).
  destruct (unlink p (fs s3)) as [root'|] eqn:E; [|discriminate].
  injection Hu as <-. cbn. exact (unlink_lookup _ _ _ E).
Qed.

(** Lockstep reading: the reads of [same_content]'s loop alternate
    between the first and the second file. *)
Lemma compare_blocks_lockstep fuel n p1 p2 : forall r1 r2 s,
  exists k,
    trace (fst (compare_blocks fuel (fun h => file_read h n)
                  (mk_handle p1 r1) (mk_handle p2 r2) s))
    = trace s ++ List.concat (repeat [EvRead p1; EvRead p2] k).
Proof.
  induction fuel as [|fuel IH]; intros r1 r2 s.
  - exists 0. cbn. now rewrite app_nil_r.
  - cbn [compare_blocks].
    erewrite bind_ok; [|apply file_read_eq].
    erewrite bind_ok; [|apply file_read_eq].
    unfold read_result; cbn [h_path h_rest].
    destruct (Z.ltb n 0).
    + destruct (negb _).
      * exists 1. cbn. now rewrite <- app_assoc.
      * destruct r1.
        -- exists 1. cbn. now rewrite <- app_assoc.
        -- destruct (IH [] [] {| fs := fs s; trace := (trace s ++ [EvRead p1]) ++ [EvRead p2] |})
             as [k Hk].
           exists (S k). cbn [fs trace] in *. rewrite Hk. cbn. now rewrite <- !app_assoc.
    + destruct (negb _).
      * exists 1. cbn. now rewrite <- app_assoc.
      * destruct (take_z n r1).
        -- exists 1. cbn. now rewrite <- app_assoc.
        -- destruct (IH (drop_z n r1) (drop_z n r2)
                        {| fs := fs s; trace := (trace s ++ [EvRead p1]) ++ [EvRead p2] |})
             as [k Hk].
           exists (S k). cbn [fs trace] in *. rewrite Hk. cbn. now rewrite <- !app_assoc.
Qed.

(** Running a read-only computation and continuing with its result. *)
Lemma bind_run {A B} (m : M A) (k : A -> M B) s :
  observer m ->
  bind m k s =
  match snd (m (mk_state (fs s) [])) with
  | Ok a => k a (mk_state (fs s) (trace s ++ trace (fst (m (mk_state (fs s) [])))))
  | Raise e => (mk_state (fs s) (trace s ++ trace (fst (m (mk_state (fs s) [])))), Raise e)
  end.
Proof.
  intros H. unfold bind. rewrite (observer_run m s H).
  destruct (snd (m (mk_state (fs s) []))); reflexivity.
Qed.

Lemma snd_run {A} (m : M A) s :
  observer m -> snd (m s) = snd (m (mk_state (fs s) [])).
Proof. intros H. now rewrite (observer_run m s H). Qed.

Lemma fs_run {A} (m : M A) s :
  observer m -> fs (fst (m s)) = fs s.
Proof. intros H. now rewrite (observer_run m s H). Qed.

Ltac run_bind := rewrite bind_run by (eauto with observer_db); cbn [fs trace].

Lemma same_file_or_dir_res p1 p2 s :
  snd (same_file_or_dir p1 p2 s)
  = Ok (match lookup p1 (fs s), lookup p2 (fs s) with
        | Some n1, Some n2 => stat_eqb (stat_of n1) (stat_of n2)
        | _, _ => false
        end).
Proof.
  destruct s as [root tr]. cbn [fs].
  unfold same_file_or_dir, except_oserror, os_stat, bind, emit, get_fs, ret, raise. cbn.
  destruct (lookup p1 root); cbn; [|reflexivity].
  destruct (lookup p2 root); reflexivity.
Qed.

Lemma same_size_res f1 f2 s :
  snd (same_size f1 f2 s)
  = Ok (match lookup f1 (fs s), lookup f2 (fs s) with
        | Some n1, Some n2 => Z.eqb (st_size (stat_of n1)) (st_size (stat_of n2))
        | _, _ => false
        end).
Proof.
  destruct s as [root tr]. cbn [fs].
  unfold same_size, getsize, except_oserror, os_stat, bind, emit, get_fs, ret, raise. cbn.
  destruct (lookup f1 root); cbn; [|reflexivity].
  destruct (lookup f2 root); cbn; [|reflexivity].
  destruct (Z.eqb _ _); reflexivity.
Qed.

Lemma open_rb_res p s :
  snd (open_rb p s)
  = match lookup p (fs s) with
    | Some (File _ _ _ true data) => Ok (mk_handle p data)
    | _ => Raise IOError
    end.
Proof.
  destruct s as [root tr]. cbn [fs].
  unfold open_rb, bind, emit, get_fs, ret, raise. cbn.
  destruct (lookup p root) as [[? ? ? [] ?|]|]; reflexivity.
Qed.

Lemma os_path_exists_res p s :
  snd (os_path_exists p s)
  = Ok (match lookup p (fs s) with Some _ => true | None => false end).
Proof.
  destruct s as [root tr]. cbn [fs].
  unfold os_path_exists, except_oserror, os_stat, bind, emit, get_fs, ret, raise. cbn.
  destruct (lookup p root); reflexivity.
Qed.

Lemma os_path_isdir_res p s :
  snd (os_path_isdir p s)
  = Ok (match lookup p (fs s) with Some (Dir _ _ _ _ _) => true | _ => false end).
Proof.
  destruct s as [root tr]. cbn [fs].
  unfold os_path_isdir, except_oserror, os_stat, bind, emit, get_fs, ret, raise. cbn.
  destruct (lookup p root) as [[]|] eqn:E; cbn; rewrite ?E; reflexivity.
Qed.

#[global] Hint Resolve not_duplicate_file_reason_observer not_duplicate_dir_reason_observer
  : observer_db.

Lemma compare_blocks_ok fuel n h1 h2 s :
  exists b, snd (compare_blocks fuel (fun h => file_read h n) h1 h2 s) = Ok b.
Proof.
  revert h1 h2 s. induction fuel as [|fuel IH]; intros h1 h2 s; [exists true; reflexivity|].
  cbn [compare_blocks].
  rewrite (bind_ok _ _ _ _ _ (file_read_eq h1 n s)).
  rewrite (bind_ok _ _ _ _ _ (file_read_eq h2 n _)).
  destruct (read_result h1 n) as [b1 h1'], (read_result h2 n) as [b2 h2'].
  destruct (negb _); [exists false; reflexivity|].
  destruct b1; [exists true; reflexivity|]. apply IH.
Qed.

Lemma files_in_empty_dir directory ign s i d m :
  lookup directory (fs s) = Some (Dir i d m true []) ->
  snd (files_in directory ign s) = Ok [].
Proof.
  intros H. destruct s as [root tr]. cbn [fs] in H.
  unfold files_in, _files_in, bind, get_fs. cbn. rewrite H. reflexivity.
Qed.

(** ** Computations that open no file *)

Definition not_open (ev : event) : Prop :=
  match ev with EvOpen _ => False | _ => True end.

Definition no_open {A} (m : M A) : Prop :=
  forall root, Forall not_open (trace (fst (m (mk_state root [])))).

Lemma bind_no_open {A B} (m : M A) (k : A -> M B) :
  observer m -> (forall a, observer (k a)) ->
  no_open m -> (forall a, no_open (k a)) -> no_open (bind m k).
Proof.
  intros Hm Hk Nm Nk root. unfold bind.
  pose proof (observer_empty m root Hm) as E0.
  pose proof (Nm root) as F0.
  destruct (m (mk_state root [])) as [s1 r1]. cbn in E0, F0 |- *.
  injection E0 as Es1.
  destruct r1 as [a | e]; [|exact F0].
  rewrite Es1, (Hk a root (trace s1)). cbn.
  apply Forall_app. split; [exact F0 | apply Nk].
Qed.

Lemma except_oserror_no_open {A} (m h : M A) :
  observer m -> observer h -> no_open m -> no_open h -> no_open (except_oserror m h).
Proof.
  intros Hm Hh Nm Nh root. unfold except_oserror.
  pose proof (observer_empty m root Hm) as E0.
  pose proof (Nm root) as F0.
  destruct (m (mk_state root [])) as [s1 r1]. cbn in E0, F0 |- *.
  injection E0 as Es1.
  destruct r1 as [a | [ | | o d w]]; try exact F0.
  rewrite Es1, (Hh root (trace s1)). cbn.
  apply Forall_app. split; [exact F0 | apply Nh].
Qed.

Lemma ret_no_open {A} (a : A) : no_open (ret a).
Proof. intros root. constructor. Qed.

Lemma raise_no_open {A} (e : exn) : no_open (@raise A e).
Proof. intros root. constructor. Qed.

Lemma get_fs_no_open : no_open get_fs.
Proof. intros root. constructor. Qed.

Lemma emit_no_open ev : not_open ev -> no_open (emit ev).
Proof. intros H root. cbn. now constructor. Qed.

Create HintDb no_open_db.
#[global] Hint Resolve ret_no_open raise_no_open get_fs_no_open : no_open_db.

Ltac no_open_step :=
  first
    [ apply ret_no_open | apply raise_no_open | apply get_fs_no_open
    | apply emit_no_open; exact I
    | apply bind_no_open; [ observer_auto | intro; observer_auto | | intro ]
    | apply except_oserror_no_open; [ observer_auto | observer_auto | | ]
    | match goal with
      | |- no_open (match ?x with _ => _ end) => destruct x
      end ].

Ltac no_open_auto := repeat (solve [eauto with no_open_db] || no_open_step).

Lemma os_stat_no_open p : no_open (os_stat p).
Proof. unfold os_stat. no_open_auto. Qed.
#[global] Hint Resolve os_stat_no_open : no_open_db.

Lemma getsize_no_open p : no_open (getsize p).
Proof. unfold getsize. no_open_auto. Qed.
#[global] Hint Resolve getsize_no_open : no_open_db.

Lemma same_file_or_dir_no_open p1 p2 : no_open (same_file_or_dir p1 p2).
Proof. unfold same_file_or_dir. no_open_auto. Qed.

Lemma same_size_no_open p1 p2 : no_open (same_size p1 p2).
Proof. unfold same_size. no_open_auto. Qed.
#[global] Hint Resolve same_file_or_dir_no_open same_size_no_open : no_open_db.

Lemma listdir_node_no_open d n : no_open (listdir_node d n).
Proof. unfold listdir_node. no_open_auto. Qed.
#[global] Hint Resolve listdir_node_no_open : no_open_db.

Lemma bind_quiet {A B} (m : M A) (k : A -> M B) :
  observer m /\ no_open m -> (forall a, observer (k a) /\ no_open (k a)) ->
  observer (bind m k) /\ no_open (bind m k).
Proof.
  intros [Hm Nm] Hk. split.
  - apply bind_observer; [exact Hm | intro a; apply Hk].
  - apply bind_no_open; [exact Hm | intro a; apply Hk | exact Nm | intro a; apply Hk].
Qed.

Lemma ret_quiet {A} (a : A) : observer (ret a) /\ no_open (ret a).
Proof. split; [apply ret_observer | apply ret_no_open]. Qed.

Lemma files_in_node_quiet : forall n directory t,
  observer (_files_in_node directory n t) /\ no_open (_files_in_node directory n t).
Proof.
  induction n as [i d m r data | i d m r es IHes] using node_ind'; intros directory t;
    cbn [_files_in_node].
  - split; [observer_auto | no_open_auto].
  - apply bind_quiet; [split; [apply listdir_node_observer | apply listdir_node_no_open]
                      | intros _].
    induction IHes as [| [name c] rest IHc IHrest IHgo]; cbn [fst snd] in *.
    + apply ret_quiet.
    + destruct (_ && _).
      * exact IHgo.
      * destruct c as [? ? ? ? ? | ? ? ? ? ?].
        -- apply bind_quiet; [exact IHgo | intro]. apply ret_quiet.
        -- apply bind_quiet; [apply IHc | intro].
           apply bind_quiet; [exact IHgo | intro]. apply ret_quiet.
Qed.

Lemma files_in_no_open d ps : no_open (files_in d ps).
Proof.
  unfold files_in, _files_in.
  apply bind_no_open; [observer_auto | intro; observer_auto | | intro].
  - apply bind_no_open; [observer_auto | intro; observer_auto | apply get_fs_no_open | intro].
    destruct (lookup d _); [apply files_in_node_quiet | no_open_auto].
  - apply ret_no_open.
Qed.
#[global] Hint Resolve files_in_no_open : no_open_db.

Lemma first_size_mismatch_no_open d c files : no_open (first_size_mismatch d c files).
Proof. induction files; cbn [first_size_mismatch]; no_open_auto. Qed.

Lemma no_open_not_in {A} (m : M A) root p :
  no_open m -> ~ In (EvOpen p) (trace (fst (m (mk_state root [])))).
Proof.
  intros N Hin. pose proof (N root) as F.
  rewrite Forall_forall in F. exact (F _ Hin).
Qed.

Lemma find_ext {X} (p q : X -> bool) l :
  (forall x, p x = q x) -> find p l = find q l.
Proof. intros H. induction l; cbn; [reflexivity|]. now rewrite H, IHl. Qed.

(** [first_size_mismatch] finds the first pair, in iteration order,
    whose sizes do not match. *)
Lemma first_size_mismatch_res d c files s :
  snd (first_size_mismatch d c files s)
  = Ok (match find (fun f => match snd (same_size (d ++ f) (c ++ f) s) with
                             | Ok true => false
                             | _ => true
                             end) files with
        | Some f => Some (RSizesDiffer (d ++ f) (c ++ f))
        | None => None
        end).
Proof.
  revert s. induction files as [|f rest IH]; intros s; [reflexivity|].
  cbn [first_size_mismatch find]. run_bind.
  rewrite (snd_run (same_size (d ++ f) (c ++ f)) s) by (eauto with observer_db).
  destruct (snd (same_size (d ++ f) (c ++ f) (mk_state (fs s) []))) as [[]|e] eqn:E.
  - cbv beta iota. rewrite IH.
    erewrite find_ext; [reflexivity|]. intros x. cbn [fs].
    now rewrite (snd_run (same_size _ _) s), (snd_run (same_size _ _) (mk_state _ _))
      by (eauto with observer_db).
  - reflexivity.
  - rewrite same_size_res in E. discriminate.
Qed.

Lemma in_quiet_trace {A} (m : M A) root tr p :
  no_open m ->
  In (EvOpen p) (tr ++ trace (fst (m (mk_state root [])))) -> In (EvOpen p) tr.
Proof.
  intros N Hin. apply in_app_or in Hin as [H | H]; [exact H|].
  exfalso. exact (no_open_not_in m root p N H).
Qed.

(* ------------------------------------------------------------------ *)
(** ** Properties of the specification *)

(** Claim C1 (as amended).  When the candidate does not exist,
    [process_duplicate] raises [NotDuplicate] ('... does not exist')
    without calling the action and without touching the filesystem; so a
    second call after a successful removal raises that error too. *)
Theorem process_duplicate_missing_candidate :
  (forall orig dup ign process s,
     lookup dup (fs s) = None ->
     process_duplicate orig dup ign process s
     = (mk_state (fs s) (trace s ++ [EvStat dup]),
        Raise (NotDuplicate orig dup (RNotExist dup)))) /\
  (forall orig dup ign ign' process s s',
     process_duplicate orig dup ign remove_file_or_dir s = (s', Ok tt) ->
     process_duplicate orig dup ign' process s'
     = (mk_state (fs s') (trace s' ++ [EvStat dup]),
        Raise (NotDuplicate orig dup (RNotExist dup)))).
Proof.
  assert (Hmissing : forall orig dup ign process s,
     lookup dup (fs s) = None ->
     process_duplicate orig dup ign process s
     = (mk_state (fs s) (trace s ++ [EvStat dup]),
        Raise (NotDuplicate orig dup (RNotExist dup)))).
  { intros orig dup ign process [root tr] H. cbn in H.
    unfold process_duplicate, os_path_exists, except_oserror, os_stat, bind, emit, get_fs.
    cbn. rewrite H. reflexivity. }
  split; [exact Hmissing|].
  intros orig dup ign ign' process s s' Hrun. apply Hmissing.
  unfold process_duplicate in Hrun.
  apply bind_inv_ok in Hrun as (s1 & ex & _ & Hrun).
  destruct (negb ex); [discriminate|].
  apply bind_inv_ok in Hrun as (s2 & isdir & _ & Hrun).
  apply bind_inv_ok in Hrun as (s3 & [r|] & _ & Hrun); [discriminate|].
  exact (remove_file_or_dir_gone _ _ _ Hrun).
Qed.

(** Claim C1 fails as stated: a missing candidate is an error, not a
    successful no-op. *)
Lemma process_duplicate_missing_candidate_raises :
  snd (process_duplicate ["orig"%string] ["dup"%string] [] remove_file_or_dir
         (at_root fs_missing_candidate))
  <> Ok tt.
Proof. vm_compute. discriminate. Qed.

(** Witness for C1: a missing candidate, and a duplicate file removed
    then processed again. *)
Lemma process_duplicate_missing_candidate_witness :
  process_duplicate ["orig"%string] ["dup"%string] [] remove_file_or_dir
    (at_root fs_missing_candidate)
  = (mk_state fs_missing_candidate [EvStat ["dup"%string]],
     Raise (NotDuplicate ["orig"%string] ["dup"%string] (RNotExist ["dup"%string])))
  /\
  process_duplicate ["1"%string] ["2"%string] [] remove_file_or_dir (at_root fs_dup_files)
  = (fst (process_duplicate ["1"%string] ["2"%string] [] remove_file_or_dir
            (at_root fs_dup_files)), Ok tt)
  /\
  let s' := fst (process_duplicate ["1"%string] ["2"%string] [] remove_file_or_dir
                   (at_root fs_dup_files)) in
  process_duplicate ["1"%string] ["2"%string] [] print_duplicate s'
  = (mk_state (fs s') (trace s' ++ [EvStat ["2"%string]]),
     Raise (NotDuplicate ["1"%string] ["2"%string] (RNotExist ["2"%string]))).
Proof.
  split.
  - exact (proj1 process_duplicate_missing_candidate ["orig"%string] ["dup"%string] []
             remove_file_or_dir (at_root fs_missing_candidate) eq_refl).
  - assert (Hrun : process_duplicate ["1"%string] ["2"%string] [] remove_file_or_dir
                     (at_root fs_dup_files)
                   = (fst (process_duplicate ["1"%string] ["2"%string] [] remove_file_or_dir
                             (at_root fs_dup_files)), Ok tt))
      by (vm_compute; reflexivity).
    split; [exact Hrun|].
    exact (proj2 process_duplicate_missing_candidate _ _ _ [] print_duplicate _ _ Hrun).
Defined.


(** Claim C2 (as amended).  [same_content] returns [False], without
    raising, when either file cannot be stat'ed or their sizes differ.
    Once the sizes match it opens both files outside any [try]: a file
    that cannot be opened (no read permission, not a regular file) makes
    it raise [IOError] instead of returning [False]. *)
Theorem same_content_io_faults f1 f2 s :
  ((lookup f1 (fs s) = None \/ lookup f2 (fs s) = None) ->
   snd (same_content f1 f2 s) = Ok false) /\
  (forall n1 n2, lookup f1 (fs s) = Some n1 -> lookup f2 (fs s) = Some n2 ->
   st_size (stat_of n1) <> st_size (stat_of n2) ->
   snd (same_content f1 f2 s) = Ok false) /\
  (forall n1 n2, lookup f1 (fs s) = Some n1 -> lookup f2 (fs s) = Some n2 ->
   st_size (stat_of n1) = st_size (stat_of n2) ->
   (openable n1 = false \/ openable n2 = false) ->
   snd (same_content f1 f2 s) = Raise IOError).
Proof.
  unfold same_content, same_content_with. run_bind. rewrite same_size_res. cbn [fs].
  split; [|split].
  - intros [H | H]; rewrite H; [reflexivity|].
    destruct (lookup f1 (fs s)); reflexivity.
  - intros n1 n2 H1 H2 Hne. rewrite H1, H2.
    apply Z.eqb_neq in Hne. now rewrite Hne.
  - intros n1 n2 H1 H2 Heq Hopen. rewrite H1, H2, Heq, Z.eqb_refl. cbn [negb].
    run_bind. rewrite open_rb_res. cbn [fs]. rewrite H1.
    destruct Hopen as [Ho | Ho].
    + destruct n1 as [? ? ? [] ? | ? ? ? ? ?]; try discriminate Ho; reflexivity.
    + destruct n1 as [? ? ? [] ? | ? ? ? ? ?]; try reflexivity.
      run_bind. rewrite open_rb_res. cbn [fs]. rewrite H2.
      destruct n2 as [? ? ? [] ? | ? ? ? ? ?]; try discriminate Ho; reflexivity.
Qed.

(** Claim C2 fails as stated: two files of equal size, the second one
    unreadable, make [same_content] raise. *)
Lemma same_content_unreadable_raises :
  snd (same_content ["f1"%string] ["f2"%string] (at_root fs_unreadable)) = Raise IOError.
Proof. vm_compute. reflexivity. Qed.

(** Witness for C2. *)
Lemma same_content_io_faults_witness :
  snd (same_content ["f1"%string] ["nope"%string] (at_root fs_unreadable)) = Ok false /\
  snd (same_content ["f1"%string] ["f2"%string] (at_root fs_unreadable)) = Raise IOError.
Proof.
  split.
  - apply (proj1 (same_content_io_faults ["f1"%string] ["nope"%string]
                    (at_root fs_unreadable))).
    right. reflexivity.
  - apply (proj2 (proj2 (same_content_io_faults ["f1"%string] ["f2"%string]
                           (at_root fs_unreadable)))
             (file_of 2 "asd") (unreadable_file_of 3 "asd")); try reflexivity.
    right. reflexivity.
Defined.

(** Claim C3 (the code does not do what it states).  The skip tree built
    from ["d"; "d/x"] keeps [d] as an inner node with the single child
    [x], so only [d/x] is skipped and the rest of [d] is still listed:
    ignoring ["d"; "d/x"] reports [d/extra] as an extra file, while
    ignoring ["d"] alone, or ["d/x"; "d"], accepts the same candidate. *)
Theorem skip_tree_shorter_path_first :
  _make_skip_path_tree ["d"%string; "d/x"%string]
  = SNode [("d"%string, SNode [("x"%string, SNode [])])] /\
  _make_skip_path_tree ["d/x"%string; "d"%string] = SNode [("d"%string, SNode [])] /\
  snd (not_duplicate_dir_reason ["directory"%string] ["candidate_dir"%string]
         ["d"%string; "d/x"%string] (at_root fs_extra_below_d))
  = Ok (Some (RExtraFiles [["d"%string; "extra"%string]])) /\
  snd (not_duplicate_dir_reason ["directory"%string] ["candidate_dir"%string]
         ["d"%string] (at_root fs_extra_below_d)) = Ok None /\
  snd (not_duplicate_dir_reason ["directory"%string] ["candidate_dir"%string]
         ["d/x"%string; "d"%string] (at_root fs_extra_below_d)) = Ok None.
Proof. vm_compute. repeat split. Qed.

(** Claim C4 (as amended).  [same_file_or_dir p p] is [True] exactly when
    [p] can be stat'ed: a missing path gives [False]. *)
Theorem same_file_or_dir_refl p s :
  snd (same_file_or_dir p p s)
  = Ok (match lookup p (fs s) with Some _ => true | None => false end).
Proof.
  rewrite same_file_or_dir_res.
  destruct (lookup p (fs s)); [now rewrite stat_eqb_refl | reflexivity].
Qed.

(** Claim C4 fails as stated: a missing path is not the same entity as
    itself. *)
Lemma same_file_or_dir_missing_not_refl :
  snd (same_file_or_dir ["missing"%string] ["missing"%string] (at_root fs_one_empty_dir))
  <> Ok true.
Proof. vm_compute. discriminate. Qed.

(** Claim C8 (as amended).  The default reader requests
    [READ_BUFFER_SIZE] = 100 MiB per read; the reader is a parameter of
    [same_content_with], and every reader [file.read(n)] reads the two
    files in lockstep, one block of the first file then one of the
    second. *)
Theorem read_block_size_and_lockstep :
  READ_BUFFER_SIZE = 104857600%Z /\
  (forall h s, _read_block h s = file_read h READ_BUFFER_SIZE s) /\
  (forall h s, snd (file_read h READ_BUFFER_SIZE s)
               = Ok (take_z READ_BUFFER_SIZE (h_rest h),
                     mk_handle (h_path h) (drop_z READ_BUFFER_SIZE (h_rest h)))) /\
  (forall fuel n p1 p2 r1 r2 s,
     exists k,
       trace (fst (compare_blocks fuel (fun h => file_read h n)
                     (mk_handle p1 r1) (mk_handle p2 r2) s))
       = trace s ++ List.concat (repeat [EvRead p1; EvRead p2] k)).
Proof.
  split; [reflexivity|]. split; [reflexivity|]. split.
  - intros h s. rewrite file_read_eq. reflexivity.
  - intros. apply compare_blocks_lockstep.
Qed.

(** Claim C8 fails as stated: the default block is not of the order of
    1 MiB but a hundred times that. *)
Lemma read_buffer_size_not_order_of_1mib :
  ~ (READ_BUFFER_SIZE < 10 * 1024 ^ 2)%Z.
Proof. unfold READ_BUFFER_SIZE. lia. Qed.

(** Claim C10.  A readable regular file has the same content as itself. *)
Theorem same_content_refl f s i d m data :
  lookup f (fs s) = Some (File i d m true data) ->
  snd (same_content f f s) = Ok true.
Proof.
  intros H. unfold same_content, same_content_with.
  run_bind. rewrite same_size_res. cbn [fs]. rewrite H, Z.eqb_refl. cbn [negb].
  run_bind. rewrite open_rb_res. cbn [fs]. rewrite H.
  run_bind. rewrite open_rb_res. cbn [fs]. rewrite H.
  exact (compare_blocks_self _ READ_BUFFER_SIZE _ _).
Qed.

(** Witness for C10. *)
Lemma same_content_refl_witness :
  snd (same_content ["1"%string] ["1"%string] (at_root fs_dup_files)) = Ok true.
Proof.
  exact (same_content_refl ["1"%string] (at_root fs_dup_files) 2 1 0
           (list_byte_of_string "asd") eq_refl).
Defined.

(** Claim C6.  The judges [not_duplicate_dir_reason] and
    [not_duplicate_file_reason] only read the filesystem.  When the judge
    that [process_duplicate] selects for an existing candidate gives a
    reason, [process_duplicate] raises [NotDuplicate] with it, leaves the
    filesystem as it was, and runs the same whatever the action is: the
    action is not called. *)
Theorem not_duplicate_leaves_fs_untouched :
  (forall d c ign, observer (not_duplicate_dir_reason d c ign)) /\
  (forall f1 f2, observer (not_duplicate_file_reason f1 f2)) /\
  (forall orig dup ign process process' s r,
     lookup dup (fs s) <> None ->
     match lookup dup (fs s) with
     | Some (Dir _ _ _ _ _) => snd (not_duplicate_dir_reason orig dup ign s)
     | _ => snd (not_duplicate_file_reason orig dup s)
     end = Ok (Some r) ->
     process_duplicate orig dup ign process s = process_duplicate orig dup ign process' s /\
     snd (process_duplicate orig dup ign process s) = Raise (NotDuplicate orig dup r) /\
     fs (fst (process_duplicate orig dup ign process s)) = fs s).
Proof.
  split; [exact not_duplicate_dir_reason_observer|].
  split; [exact not_duplicate_file_reason_observer|].
  intros orig dup ign process process' s r Hex Hr.
  assert (Hrun : forall act,
    process_duplicate orig dup ign act s
    = (mk_state (fs s)
         (trace s ++ trace (fst (os_path_exists dup (mk_state (fs s) [])))
            ++ trace (fst (os_path_isdir dup (mk_state (fs s) [])))
            ++ trace (fst ((if match lookup dup (fs s) with
                                | Some (Dir _ _ _ _ _) => true
                                | _ => false
                                end
                            then not_duplicate_dir_reason orig dup ign
                            else not_duplicate_file_reason orig dup)
                             (mk_state (fs s) [])))),
       Raise (NotDuplicate orig dup r))).
  { intros act. unfold process_duplicate.
    run_bind. rewrite os_path_exists_res. cbn [fs].
    destruct (lookup dup (fs s)) as [n|] eqn:E; [|contradiction]. cbn [negb].
    run_bind. rewrite os_path_isdir_res. cbn [fs]. rewrite E. cbv beta iota.
    destruct n as [? ? ? ? ? | ? ? ? ? ?].
    - run_bind. rewrite (snd_run _ s) in Hr by (eauto with observer_db).
      rewrite Hr. now rewrite !app_assoc.
    - run_bind. rewrite (snd_run _ s) in Hr by (eauto with observer_db).
      rewrite Hr. now rewrite !app_assoc. }
  rewrite !Hrun. repeat split.
Qed.

(** Witness for C6: a candidate file whose content differs. *)
Lemma not_duplicate_leaves_fs_untouched_witness :
  let s0 := at_root fs_extra_below_d in
  let orig := ["candidate_dir"%string; "d"%string; "x"%string] in
  let dup := ["candidate_dir"%string; "d"%string; "extra"%string] in
  process_duplicate orig dup [] remove_file_or_dir s0
  = process_duplicate orig dup [] print_duplicate s0 /\
  snd (process_duplicate orig dup [] remove_file_or_dir s0)
  = Raise (NotDuplicate orig dup (RFilesDiffer orig dup)) /\
  fs (fst (process_duplicate orig dup [] remove_file_or_dir s0)) = fs s0.
Proof.
  intros s0 orig dup.
  apply (proj2 (proj2 not_duplicate_leaves_fs_untouched) orig dup [] remove_file_or_dir
           print_duplicate s0 (RFilesDiffer orig dup));
    [vm_compute; discriminate | vm_compute; reflexivity].
Defined.

(** Claim C7 (as amended).  [not_duplicate_file_reason] decides in this
    order: 'same file' when [same_file_or_dir] holds; otherwise 'files
    differ' when [same_content] returns [False] and no reason
    (SafeToRemove) when it returns [True]; when [same_content] raises (files
    of equal size, one of which cannot be opened) the error propagates and
    there is no verdict.  For two readable regular files there always is
    one. *)
Theorem not_duplicate_file_reason_order f1 f2 s :
  snd (not_duplicate_file_reason f1 f2 s) =
  match snd (same_file_or_dir f1 f2 s) with
  | Ok true => Ok (Some (RSameFile f1 f2))
  | _ =>
      match snd (same_content f1 f2 s) with
      | Ok false => Ok (Some (RFilesDiffer f1 f2))
      | Ok true => Ok None
      | Raise e => Raise e
      end
  end /\
  (forall i1 d1 m1 data1 i2 d2 m2 data2,
     lookup f1 (fs s) = Some (File i1 d1 m1 true data1) ->
     lookup f2 (fs s) = Some (File i2 d2 m2 true data2) ->
     exists r, snd (not_duplicate_file_reason f1 f2 s) = Ok r).
Proof.
  assert (Horder : snd (not_duplicate_file_reason f1 f2 s) =
    match snd (same_file_or_dir f1 f2 s) with
    | Ok true => Ok (Some (RSameFile f1 f2))
    | _ =>
        match snd (same_content f1 f2 s) with
        | Ok false => Ok (Some (RFilesDiffer f1 f2))
        | Ok true => Ok None
        | Raise e => Raise e
        end
    end).
  { unfold not_duplicate_file_reason. run_bind.
    rewrite !same_file_or_dir_res. cbn [fs].
    destruct (lookup f1 (fs s)) as [n1|];
      [destruct (lookup f2 (fs s)) as [n2|]; [destruct (stat_eqb _ _)|]|];
      try reflexivity;
      run_bind; rewrite (snd_run (same_content f1 f2) s) by (eauto with observer_db);
      destruct (snd (same_content f1 f2 (mk_state (fs s) []))) as [[]|e]; reflexivity. }
  split; [exact Horder|].
  intros i1 d1 m1 data1 i2 d2 m2 data2 H1 H2. rewrite Horder.
  destruct (snd (same_file_or_dir f1 f2 s)) as [[]|]; [eauto| |];
  (assert (Hc : exists b, snd (same_content f1 f2 s) = Ok b);
   [ unfold same_content, same_content_with;
     run_bind; rewrite same_size_res; cbn [fs]; rewrite H1, H2;
     destruct (negb _); [exists false; reflexivity|];
     run_bind; rewrite open_rb_res; cbn [fs]; rewrite H1;
     run_bind; rewrite open_rb_res; cbn [fs]; rewrite H2;
     apply compare_blocks_ok
   | destruct Hc as [[] Hc]; rewrite Hc; eauto ]).
Qed.

(** Claim C7 fails as stated: for two existing files of equal size, the
    second unreadable, there is no verdict but an [IOError]. *)
Lemma not_duplicate_file_reason_unreadable_raises :
  snd (not_duplicate_file_reason ["f1"%string] ["f2"%string] (at_root fs_unreadable))
  = Raise IOError.
Proof. vm_compute. reflexivity. Qed.

(** Witness for C7: two readable files with the same content. *)
Lemma not_duplicate_file_reason_order_witness :
  exists r, snd (not_duplicate_file_reason ["1"%string] ["2"%string]
                   (at_root fs_dup_files)) = Ok r.
Proof.
  apply (proj2 (not_duplicate_file_reason_order ["1"%string] ["2"%string]
                  (at_root fs_dup_files))
           2%Z 1%Z 0%Z (list_byte_of_string "asd") 3%Z 1%Z 0%Z (list_byte_of_string "asd"));
    reflexivity.
Defined.

(** Claim C9 (as amended).  A readable empty candidate directory that is
    not the same entity as the original, against an original directory
    whose tree can be listed, is judged safe to remove, with any ignore
    list. *)
Theorem empty_candidate_dir_safe orig cand ign s i d m origs :
  lookup cand (fs s) = Some (Dir i d m true []) ->
  snd (same_file_or_dir orig cand s) = Ok false ->
  snd (files_in orig [] s) = Ok origs ->
  snd (not_duplicate_dir_reason orig cand ign s) = Ok None.
Proof.
  intros Hc Hsame Horig. unfold not_duplicate_dir_reason.
  run_bind. rewrite (snd_run _ s) in Hsame by (eauto with observer_db).
  rewrite Hsame.
  run_bind. rewrite (files_in_empty_dir cand ign (mk_state (fs s) []) i d m Hc).
  run_bind. rewrite (snd_run _ s) in Horig by (eauto with observer_db).
  rewrite Horig. reflexivity.
Qed.

(** Claim C9 fails as stated: an empty directory against itself is
    refused as the same directory. *)
Lemma empty_dir_against_itself_refused :
  snd (not_duplicate_dir_reason ["d"%string] ["d"%string] [] (at_root fs_one_empty_dir))
  = Ok (Some (RSameDir ["d"%string] ["d"%string])).
Proof. vm_compute. reflexivity. Qed.

(** Witness for C9: two distinct empty directories. *)
Lemma empty_candidate_dir_safe_witness :
  snd (not_duplicate_dir_reason ["directory"%string] ["candidate_dir"%string] ["x"%string]
         (at_root fs_two_empty_dirs)) = Ok None.
Proof.
  apply (empty_candidate_dir_safe _ _ _ _ 3%Z 1%Z 0%Z []); vm_compute; reflexivity.
Defined.

(** Claim C5.  For two directories that are not the same entity,
    [not_duplicate_dir_reason] reports the extra candidate files (the
    candidate's listing minus the original's) before comparing anything;
    with no extra file it reports the first pair whose sizes differ; and
    it opens a file (compares contents) only after the extra files came
    out empty and the sizes of all common pairs matched. *)
Theorem dir_reason_extra_then_sizes_then_contents d c ign s :
  (forall cands origs,
     snd (same_file_or_dir d c s) = Ok false ->
     snd (files_in c ign s) = Ok cands ->
     snd (files_in d [] s) = Ok origs ->
     set_minus (py_set cands) (py_set origs) <> [] ->
     snd (not_duplicate_dir_reason d c ign s)
     = Ok (Some (RExtraFiles (sorted (set_minus (py_set cands) (py_set origs)))))) /\
  (forall cands origs f,
     snd (same_file_or_dir d c s) = Ok false ->
     snd (files_in c ign s) = Ok cands ->
     snd (files_in d [] s) = Ok origs ->
     set_minus (py_set cands) (py_set origs) = [] ->
     find (fun f => match snd (same_size (d ++ f) (c ++ f) s) with
                    | Ok true => false
                    | _ => true
                    end) (py_set cands) = Some f ->
     snd (not_duplicate_dir_reason d c ign s) = Ok (Some (RSizesDiffer (d ++ f) (c ++ f)))) /\
  (forall p,
     In (EvOpen p) (trace (fst (not_duplicate_dir_reason d c ign s))) ->
     In (EvOpen p) (trace s) \/
     (snd (same_file_or_dir d c s) = Ok false /\
      exists cands origs,
        snd (files_in c ign s) = Ok cands /\
        snd (files_in d [] s) = Ok origs /\
        set_minus (py_set cands) (py_set origs) = [] /\
        (forall f, In f (py_set cands) -> snd (same_size (d ++ f) (c ++ f) s) = Ok true))).
Proof.
  rewrite (snd_run (same_file_or_dir d c) s), (snd_run (files_in c ign) s),
    (snd_run (files_in d []) s) by (eauto with observer_db).
  unfold not_duplicate_dir_reason. run_bind.
  assert (Hsz : forall files,
    find (fun f => match snd (same_size (d ++ f) (c ++ f) s) with
                   | Ok true => false
                   | _ => true
                   end) files
    = find (fun f => match snd (same_size (d ++ f) (c ++ f) (mk_state (fs s) [])) with
                     | Ok true => false
                     | _ => true
                     end) files).
  { intros files. apply find_ext. intros x.
    now rewrite (snd_run (same_size _ _) s) by (eauto with observer_db). }
  destruct (snd (same_file_or_dir d c (mk_state (fs s) []))) as [[]|e] eqn:Hs;
    cbv beta iota.
  (* the same directory *)
  - split; [intros ? ? H; discriminate H|]. split; [intros ? ? ? H; discriminate H|].
    intros p Hin. left. unfold ret in Hin. cbn [fst trace] in Hin.
    exact (in_quiet_trace _ _ _ _ (same_file_or_dir_no_open d c) Hin).
  - run_bind.
    destruct (snd (files_in c ign (mk_state (fs s) []))) as [cands|e] eqn:Hc;
      cbv beta iota.
    2: { split; [intros ? ? _ H; discriminate H|].
         split; [intros ? ? ? _ H; discriminate H|].
         intros p Hin. left. cbn [fst trace] in Hin.
         apply in_quiet_trace in Hin; [|apply files_in_no_open].
         exact (in_quiet_trace _ _ _ _ (same_file_or_dir_no_open d c) Hin). }
    run_bind.
    destruct (snd (files_in d [] (mk_state (fs s) []))) as [origs|e] eqn:Ho;
      cbv beta iota.
    2: { split; [intros ? ? _ _ H; discriminate H|].
         split; [intros ? ? ? _ _ H; discriminate H|].
         intros p Hin. left. cbn [fst trace] in Hin.
         apply in_quiet_trace in Hin; [|apply files_in_no_open].
         apply in_quiet_trace in Hin; [|apply files_in_no_open].
         exact (in_quiet_trace _ _ _ _ (same_file_or_dir_no_open d c) Hin). }
    destruct (set_minus (py_set cands) (py_set origs)) as [|x xs] eqn:Hx.
    + (* no extra file: the size sweep *)
      split; [intros ? ? _ H1 H2 Hne; injection H1 as <-; injection H2 as <-;
              now rewrite Hx in Hne|].
      run_bind. rewrite first_size_mismatch_res. cbn [fs].
      destruct (find (fun f => match snd (same_size (d ++ f) (c ++ f) (mk_state (fs s) [])) with
                               | Ok true => false
                               | _ => true
                               end) (py_set cands)) as [f|] eqn:Hf; cbv beta iota.
      * split.
        { intros ? ? f' _ H1 H2 _ Hf'. injection H1 as <-; injection H2 as <-.
          rewrite Hsz, Hf in Hf'. injection Hf' as <-. reflexivity. }
        intros p Hin. left. unfold ret in Hin. cbn [fst trace] in Hin.
        apply in_quiet_trace in Hin; [|apply first_size_mismatch_no_open].
        apply in_quiet_trace in Hin; [|apply files_in_no_open].
        apply in_quiet_trace in Hin; [|apply files_in_no_open].
        exact (in_quiet_trace _ _ _ _ (same_file_or_dir_no_open d c) Hin).
      * split.
        { intros ? ? f' _ H1 H2 _ Hf'. injection H1 as <-; injection H2 as <-.
          rewrite Hsz, Hf in Hf'. discriminate Hf'. }
        intros p _. right. split; [reflexivity|].
        exists cands, origs. repeat split; try assumption.
        intros f Hin.
        pose proof (find_none _ _ Hf f Hin) as Hfalse. cbv beta in Hfalse.
        rewrite (snd_run (same_size _ _) s) by (eauto with observer_db).
        destruct (snd (same_size (d ++ f) (c ++ f) (mk_state (fs s) []))) as [[]|];
          congruence.
    + (* extra files *)
      split.
      { intros ? ? _ H1 H2 _. injection H1 as <-; injection H2 as <-.
        rewrite Hx. reflexivity. }
      split; [intros ? ? ? _ H1 H2 Hnil; injection H1 as <-; injection H2 as <-;
              now rewrite Hx in Hnil|].
      intros p Hin. left. unfold ret in Hin. cbn [fst trace] in Hin.
      apply in_quiet_trace in Hin; [|apply files_in_no_open].
      apply in_quiet_trace in Hin; [|apply files_in_no_open].
      exact (in_quiet_trace _ _ _ _ (same_file_or_dir_no_open d c) Hin).
  - split; [intros ? ? H; discriminate H|]. split; [intros ? ? ? H; discriminate H|].
    intros p Hin. left. cbn [fst trace] in Hin.
    exact (in_quiet_trace _ _ _ _ (same_file_or_dir_no_open d c) Hin).
Qed.

(** Witness for C5: extra files, a size mismatch, and a content
    comparison that only happens after both checks passed. *)
Lemma dir_reason_extra_then_sizes_then_contents_witness :
  snd (not_duplicate_dir_reason ["directory"%string] ["candidate_dir"%string] []
         (at_root fs_extra_below_d))
  = Ok (Some (RExtraFiles [["d"%string; "extra"%string]; ["d"%string; "x"%string]])) /\
  snd (not_duplicate_dir_reason ["directory"%string] ["candidate_dir"%string] []
         (at_root fs_size_mismatch))
  = Ok (Some (RSizesDiffer ["directory"%string; "f"%string]
                ["candidate_dir"%string; "f"%string])) /\
  snd (same_file_or_dir ["directory"%string] ["candidate_dir"%string]
         (at_root fs_dup_dirs)) = Ok false.
Proof.
  split; [|split].
  - apply (proj1 (dir_reason_extra_then_sizes_then_contents
                    ["directory"%string] ["candidate_dir"%string] []
                    (at_root fs_extra_below_d))
             [["file"%string]; ["d"%string; "x"%string]; ["d"%string; "extra"%string]]
             [["file"%string]]);
      vm_compute; [reflexivity | reflexivity | reflexivity | discriminate].
  - apply (proj1 (proj2 (dir_reason_extra_then_sizes_then_contents
                           ["directory"%string] ["candidate_dir"%string] []
                           (at_root fs_size_mismatch)))
             [["f"%string]] [["f"%string]] ["f"%string]);
      vm_compute; reflexivity.
  - destruct (proj2 (proj2 (dir_reason_extra_then_sizes_then_contents
                              ["directory"%string] ["candidate_dir"%string] []
                              (at_root fs_dup_dirs)))
                ["directory"%string; "f"%string])
      as [Hin | [Hsame _]].
    + vm_compute. repeat (first [left; reflexivity | right]).
    + destruct Hin.
    + exact Hsame.
Defined.

(* ------------------------------------------------------------------ *)
(** ** Further properties of the code *)

(** *** Reading blocks *)

Lemma take_drop_z n l : take_z n l ++ drop_z n l = l.
Proof.
  revert n. induction l as [|x rest IH]; intros n; cbn; [reflexivity|].
  destruct (Z.leb n 0); cbn; [reflexivity|]. now rewrite IH.
Qed.

Lemma length_take_z n l : List.length (take_z n l) = Nat.min (Z.to_nat n) (List.length l).
Proof.
  revert n. induction l as [|x rest IH]; intros n; cbn; [lia|].
  destruct (Z.leb n 0) eqn:E; cbn.
  - apply Z.leb_le in E. replace (Z.to_nat n) with 0%nat by lia. reflexivity.
  - apply Z.leb_gt in E. rewrite IH.
    replace (Z.to_nat n) with (S (Z.to_nat (n - 1))) by lia. reflexivity.
Qed.

Lemma take_z_nil n l : (0 < n)%Z -> take_z n l = [] -> l = [].
Proof.
  intros Hn H. destruct l as [|x rest]; [reflexivity|]. cbn in H.
  destruct (Z.leb n 0) eqn:E; [apply Z.leb_le in E; lia | discriminate].
Qed.

Lemma bytes_eqb_eq a b : bytes_eqb a b = true <-> a = b.
Proof.
  revert b. induction a as [|x a IH]; intros [|y b]; cbn; split; intros H;
    try discriminate; try reflexivity.
  - apply andb_true_iff in H as [Hx Hab]. apply Byte.byte_dec_bl in Hx.
    apply IH in Hab. now subst.
  - injection H as <- <-. now rewrite (Byte.byte_dec_lb eq_refl), (proj2 (IH a) eq_refl).
Qed.

Lemma bytes_eqb_sym a b : bytes_eqb a b = bytes_eqb b a.
Proof.
  destruct (bytes_eqb a b) eqn:E1, (bytes_eqb b a) eqn:E2; try reflexivity.
  - apply bytes_eqb_eq in E1. subst. now rewrite bytes_eqb_refl in E2.
  - apply bytes_eqb_eq in E2. subst. now rewrite bytes_eqb_refl in E1.
Qed.

Lemma bytes_eqb_app a1 b1 a2 b2 :
  List.length a1 = List.length a2 ->
  bytes_eqb (a1 ++ b1) (a2 ++ b2) = bytes_eqb a1 a2 && bytes_eqb b1 b2.
Proof.
  revert a2. induction a1 as [|x a1 IH]; intros [|y a2] H; cbn in *; try discriminate;
    [reflexivity|].
  rewrite IH by lia. now rewrite andb_assoc.
Qed.

Lemma bytes_eqb_length a b : List.length a <> List.length b -> bytes_eqb a b = false.
Proof.
  intros H. destruct (bytes_eqb a b) eqn:E; [|reflexivity].
  apply bytes_eqb_eq in E. now subst.
Qed.

Lemma compare_blocks_nil fuel n p1 p2 s :
  snd (compare_blocks fuel (fun h => file_read h n) (mk_handle p1 []) (mk_handle p2 []) s)
  = Ok true.
Proof.
  destruct fuel as [|fuel]; [reflexivity|]. cbn [compare_blocks].
  rewrite (bind_ok _ _ _ _ _ (file_read_eq _ n s)).
  rewrite (bind_ok _ _ _ _ _ (file_read_eq _ n _)).
  unfold read_result; cbn [h_rest h_path].
  destruct (Z.ltb n 0); reflexivity.
Qed.

(** The loop of [same_content] with the reader [file.read(n)], [n > 0],
    on two remainders of equal length compares them byte for byte,
    provided it is given more rounds than there are bytes. *)
Lemma compare_blocks_pos fuel n p1 p2 r1 r2 s :
  (0 < n)%Z -> List.length r1 = List.length r2 -> (List.length r1 < fuel)%nat ->
  snd (compare_blocks fuel (fun h => file_read h n) (mk_handle p1 r1) (mk_handle p2 r2) s)
  = Ok (bytes_eqb r1 r2).
Proof.
  intros Hn. revert r1 r2 s. induction fuel as [|fuel IH]; intros r1 r2 s Hlen Hf; [lia|].
  cbn [compare_blocks].
  rewrite (bind_ok _ _ _ _ _ (file_read_eq _ n s)).
  rewrite (bind_ok _ _ _ _ _ (file_read_eq _ n _)).
  unfold read_result; cbn [h_rest h_path].
  assert (Hneg : Z.ltb n 0 = false) by (apply Z.ltb_ge; lia). rewrite Hneg.
  pose proof (take_drop_z n r1) as E1. pose proof (take_drop_z n r2) as E2.
  assert (Ht : List.length (take_z n r1) = List.length (take_z n r2))
    by (rewrite !length_take_z; lia).
  assert (Hr : bytes_eqb r1 r2 = bytes_eqb (take_z n r1) (take_z n r2)
                                  && bytes_eqb (drop_z n r1) (drop_z n r2)).
  { rewrite <- E1, <- E2 at 1. now apply bytes_eqb_app. }
  destruct (bytes_eqb (take_z n r1) (take_z n r2)) eqn:Eb; cbn [negb andb] in *.
  - destruct (take_z n r1) as [|x xs] eqn:Et.
    + apply take_z_nil in Et; [|exact Hn]. subst r1.
      destruct r2; [reflexivity | discriminate].
    + rewrite Hr.
      pose proof (f_equal (@List.length byte) E1) as L1.
      pose proof (f_equal (@List.length byte) E2) as L2.
      rewrite length_app in L1, L2. cbn in L1, Ht.
      apply IH; lia.
  - now rewrite Hr.
Qed.

Lemma compare_blocks_neg fuel n p1 p2 r1 r2 s :
  (n < 0)%Z -> List.length r1 = List.length r2 -> (0 < fuel)%nat ->
  snd (compare_blocks fuel (fun h => file_read h n) (mk_handle p1 r1) (mk_handle p2 r2) s)
  = Ok (bytes_eqb r1 r2).
Proof.
  intros Hn Hlen Hf. destruct fuel as [|fuel]; [lia|]. cbn [compare_blocks].
  rewrite (bind_ok _ _ _ _ _ (file_read_eq _ n s)).
  rewrite (bind_ok _ _ _ _ _ (file_read_eq _ n _)).
  unfold read_result; cbn [h_rest h_path].
  assert (Hneg : Z.ltb n 0 = true) by (apply Z.ltb_lt; lia). rewrite Hneg.
  destruct (bytes_eqb r1 r2) eqn:Eb; cbn [negb]; [|reflexivity].
  destruct r1 as [|x xs]; [reflexivity|]. apply compare_blocks_nil.
Qed.

Lemma take_z_zero l : take_z 0 l = [].
Proof. destruct l; reflexivity. Qed.

Lemma compare_blocks_zero fuel p1 p2 r1 r2 s :
  (0 < fuel)%nat ->
  snd (compare_blocks fuel (fun h => file_read h 0) (mk_handle p1 r1) (mk_handle p2 r2) s)
  = Ok true.
Proof.
  intros Hf. destruct fuel as [|fuel]; [lia|]. cbn [compare_blocks].
  rewrite (bind_ok _ _ _ _ _ (file_read_eq _ 0 s)).
  rewrite (bind_ok _ _ _ _ _ (file_read_eq _ 0 _)).
  unfold read_result; cbn [h_rest h_path Z.ltb Z.compare]. rewrite !take_z_zero. reflexivity.
Qed.

Lemma Z_of_nat_eqb a b : Z.eqb (Z.of_nat a) (Z.of_nat b) = Nat.eqb a b.
Proof.
  destruct (Nat.eqb a b) eqn:E.
  - apply Nat.eqb_eq in E. subst. apply Z.eqb_refl.
  - apply Nat.eqb_neq in E. apply Z.eqb_neq. lia.
Qed.

(** [same_content_with] with the reader [file.read(n)] on two readable
    regular files. *)
Lemma same_content_with_file_read_res f1 f2 s n i1 dv1 m1 data1 i2 dv2 m2 data2 :
  lookup f1 (fs s) = Some (File i1 dv1 m1 true data1) ->
  lookup f2 (fs s) = Some (File i2 dv2 m2 true data2) ->
  snd (same_content_with (fun h => file_read h n) f1 f2 s)
  = Ok (if Z.eqb n 0 then Nat.eqb (List.length data1) (List.length data2)
        else bytes_eqb data1 data2).
Proof.
  intros H1 H2. unfold same_content_with.
  run_bind. rewrite same_size_res. cbn [fs]. rewrite H1, H2. cbn [stat_of st_size].
  rewrite Z_of_nat_eqb.
  destruct (Nat.eqb (List.length data1) (List.length data2)) eqn:El; cbn [negb].
  - apply Nat.eqb_eq in El.
    run_bind. rewrite open_rb_res. cbn [fs]. rewrite H1.
    run_bind. rewrite open_rb_res. cbn [fs]. rewrite H2. cbn [h_rest].
    destruct (Z.eqb n 0) eqn:En.
    + apply Z.eqb_eq in En. subst n. apply compare_blocks_zero. lia.
    + apply Z.eqb_neq in En. destruct (Z.ltb n 0) eqn:Eneg.
      * apply Z.ltb_lt in Eneg. apply compare_blocks_neg; lia.
      * apply Z.ltb_ge in Eneg. apply compare_blocks_pos; lia.
  - destruct (Z.eqb n 0); [reflexivity|].
    apply Nat.eqb_neq in El. now rewrite bytes_eqb_length.
Qed.

Lemma same_content_as_file_read f1 f2 s :
  same_content f1 f2 s = same_content_with (fun h => file_read h READ_BUFFER_SIZE) f1 f2 s.
Proof. reflexivity. Qed.

Lemma READ_BUFFER_SIZE_neq_0 : READ_BUFFER_SIZE <> 0%Z.
Proof. unfold READ_BUFFER_SIZE. lia. Qed.

Lemma stat_eqb_sym a b : stat_eqb a b = stat_eqb b a.
Proof.
  destruct a, b; unfold stat_eqb; cbn.
  now rewrite (Z.eqb_sym st_ino0), (Z.eqb_sym st_dev0), (Z.eqb_sym st_size0),
    (Z.eqb_sym st_mtime0).
Qed.

(** X1.  [same_content] with the default reader, and [same_content_with]
    with any reader [file.read(n)] for [n <> 0], on two readable regular
    files, returns [True] exactly when the two files hold the same bytes
    and [False] otherwise, whatever their length; the loop's block by
    block reading never stops early with a wrong answer.  With
    [file.read(0)] every block is empty and only the sizes are
    compared. *)
Theorem same_content_compares_bytes f1 f2 s i1 dv1 m1 data1 i2 dv2 m2 data2 :
  lookup f1 (fs s) = Some (File i1 dv1 m1 true data1) ->
  lookup f2 (fs s) = Some (File i2 dv2 m2 true data2) ->
  (snd (same_content f1 f2 s) = Ok true <-> data1 = data2) /\
  (snd (same_content f1 f2 s) = Ok false <-> data1 <> data2) /\
  (forall n, n <> 0%Z ->
     (snd (same_content_with (fun h => file_read h n) f1 f2 s) = Ok true <-> data1 = data2) /\
     (snd (same_content_with (fun h => file_read h n) f1 f2 s) = Ok false <-> data1 <> data2)) /\
  snd (same_content_with (fun h => file_read h 0) f1 f2 s)
  = Ok (Nat.eqb (List.length data1) (List.length data2)).
Proof.
  intros H1 H2.
  assert (Hgen : forall n, n <> 0%Z ->
     (snd (same_content_with (fun h => file_read h n) f1 f2 s) = Ok true <-> data1 = data2) /\
     (snd (same_content_with (fun h => file_read h n) f1 f2 s) = Ok false <-> data1 <> data2)).
  { intros n Hn. rewrite (same_content_with_file_read_res _ _ _ n _ _ _ _ _ _ _ _ H1 H2).
    apply Z.eqb_neq in Hn. rewrite Hn.
    destruct (bytes_eqb data1 data2) eqn:Eb.
    - apply bytes_eqb_eq in Eb. subst data2.
      split; split; intros H; [reflexivity | reflexivity | discriminate | contradiction].
    - assert (Hne : data1 <> data2)
        by (intros E; subst data2; now rewrite bytes_eqb_refl in Eb).
      split; split; intros H; [discriminate | contradiction | exact Hne | reflexivity]. }
  split; [|split; [|split]].
  - rewrite same_content_as_file_read. exact (proj1 (Hgen _ READ_BUFFER_SIZE_neq_0)).
  - rewrite same_content_as_file_read. exact (proj2 (Hgen _ READ_BUFFER_SIZE_neq_0)).
  - exact Hgen.
  - rewrite (same_content_with_file_read_res _ _ _ 0 _ _ _ _ _ _ _ _ H1 H2). reflexivity.
Qed.

(** What [same_content] returns, from the nodes at its two paths. *)
Lemma same_content_res f1 f2 s :
  snd (same_content f1 f2 s)
  = match lookup f1 (fs s), lookup f2 (fs s) with
    | Some n1, Some n2 =>
        if Z.eqb (st_size (stat_of n1)) (st_size (stat_of n2)) then
          match n1, n2 with
          | File _ _ _ true d1, File _ _ _ true d2 => Ok (bytes_eqb d1 d2)
          | _, _ => Raise IOError
          end
        else Ok false
    | _, _ => Ok false
    end.
Proof.
  destruct (lookup f1 (fs s)) as [n1|] eqn:H1, (lookup f2 (fs s)) as [n2|] eqn:H2;
    [| unfold same_content, same_content_with; run_bind; rewrite same_size_res; cbn [fs];
       rewrite ?H1, ?H2; reflexivity ..].
  destruct (Z.eqb (st_size (stat_of n1)) (st_size (stat_of n2))) eqn:Es.
  - destruct n1 as [i1 dv1 m1 [] data1 | ? ? ? ? ?];
      [destruct n2 as [i2 dv2 m2 [] data2 | ? ? ? ? ?] | |].
    + rewrite same_content_as_file_read,
        (same_content_with_file_read_res _ _ _ READ_BUFFER_SIZE _ _ _ _ _ _ _ _ H1 H2).
      pose proof (proj2 (Z.eqb_neq _ _) READ_BUFFER_SIZE_neq_0) as E0. now rewrite E0.
    + unfold same_content, same_content_with; run_bind; rewrite same_size_res; cbn [fs].
      rewrite H1, H2, Es. cbn [negb].
      run_bind. rewrite open_rb_res. cbn [fs]. rewrite H1.
      run_bind. rewrite open_rb_res. cbn [fs]. rewrite H2. reflexivity.
    + unfold same_content, same_content_with; run_bind; rewrite same_size_res; cbn [fs].
      rewrite H1, H2, Es. cbn [negb].
      run_bind. rewrite open_rb_res. cbn [fs]. rewrite H1.
      run_bind. rewrite open_rb_res. cbn [fs]. rewrite H2. reflexivity.
    + unfold same_content, same_content_with; run_bind; rewrite same_size_res; cbn [fs].
      rewrite H1, H2, Es. cbn [negb].
      run_bind. rewrite open_rb_res. cbn [fs]. rewrite H1. reflexivity.
    + unfold same_content, same_content_with; run_bind; rewrite same_size_res; cbn [fs].
      rewrite H1, H2, Es. cbn [negb].
      run_bind. rewrite open_rb_res. cbn [fs]. rewrite H1. reflexivity.
  - unfold same_content, same_content_with; run_bind; rewrite same_size_res; cbn [fs].
    rewrite H1, H2, Es. reflexivity.
Qed.

(** X2.  [same_file_or_dir], [same_size] and [same_content] do not
    depend on the order of their two arguments: swapping them gives the
    same result, the [IOError] of [same_content] on a file that cannot
    be opened included. *)
Theorem comparisons_symmetric f1 f2 s :
  snd (same_file_or_dir f1 f2 s) = snd (same_file_or_dir f2 f1 s) /\
  snd (same_size f1 f2 s) = snd (same_size f2 f1 s) /\
  snd (same_content f1 f2 s) = snd (same_content f2 f1 s).
Proof.
  split; [|split].
  - rewrite !same_file_or_dir_res.
    destruct (lookup f1 (fs s)), (lookup f2 (fs s)); try reflexivity.
    now rewrite stat_eqb_sym.
  - rewrite !same_size_res.
    destruct (lookup f1 (fs s)), (lookup f2 (fs s)); try reflexivity.
    now rewrite Z.eqb_sym.
  - rewrite !same_content_res.
    destruct (lookup f1 (fs s)) as [n1|], (lookup f2 (fs s)) as [n2|]; try reflexivity.
    rewrite (Z.eqb_sym (st_size (stat_of n2))).
    destruct (Z.eqb _ _); [|reflexivity].
    destruct n1 as [? ? ? [] ? | ? ? ? ? ?], n2 as [? ? ? [] ? | ? ? ? ? ?]; try reflexivity.
    now rewrite bytes_eqb_sym.
Qed.

(** *** The skip path tree *)

Lemma find_set_child_same k v cs :
  exists k', find (fun kv => String.eqb (fst kv) k) (set_child k v cs) = Some (k', v).
Proof.
  induction cs as [| [k0 c] rest IH]; cbn.
  - rewrite String.eqb_refl. eauto.
  - destruct (String.eqb k0 k) eqn:E; cbn; rewrite E; eauto.
Qed.

Lemma find_set_child_other k k' v cs :
  k' <> k ->
  find (fun kv => String.eqb (fst kv) k') (set_child k v cs)
  = find (fun kv => String.eqb (fst kv) k') cs.
Proof.
  intros Hne. induction cs as [| [k0 c] rest IH]; cbn.
  - apply String.eqb_neq in Hne. rewrite String.eqb_sym, Hne. reflexivity.
  - destruct (String.eqb k0 k) eqn:E; cbn.
    + apply String.eqb_eq in E. subst k0.
      apply String.eqb_neq in Hne. rewrite String.eqb_sym, Hne. reflexivity.
    + destruct (String.eqb k0 k'); [reflexivity | exact IH].
Qed.

Lemma existsb_find {X} (p : X -> bool) l :
  existsb p l = match find p l with Some _ => true | None => false end.
Proof. induction l as [|a l IH]; cbn; [reflexivity|]. destruct (p a); [reflexivity | exact IH]. Qed.

Lemma tree_get_set_same t k v : tree_get (tree_set t k v) k = v.
Proof.
  destruct t as [cs]. cbn. destruct (find_set_child_same k v cs) as [k' E]. now rewrite E.
Qed.

Lemma tree_has_set_same t k v : tree_has (tree_set t k v) k = true.
Proof.
  destruct t as [cs]. cbn. rewrite existsb_find.
  destruct (find_set_child_same k v cs) as [k' E]. now rewrite E.
Qed.

Lemma tree_get_set_other t k k' v : k' <> k -> tree_get (tree_set t k v) k' = tree_get t k'.
Proof. intros H. destruct t as [cs]. cbn. now rewrite find_set_child_other. Qed.

Lemma tree_has_set_other t k k' v : k' <> k -> tree_has (tree_set t k v) k' = tree_has t k'.
Proof. intros H. destruct t as [cs]. cbn. rewrite !existsb_find. now rewrite find_set_child_other. Qed.

Lemma tree_get_missing t k : tree_has t k = false -> tree_get t k = empty_tree.
Proof.
  destruct t as [cs]. cbn. rewrite existsb_find.
  destruct (find _ cs) as [[]|]; [discriminate | reflexivity].
Qed.

Lemma tree_walk_app a b t :
  tree_walk (a ++ b) t = match tree_walk a t with Some t' => tree_walk b t' | None => None end.
Proof.
  revert t. induction a as [|s a IH]; intros t; cbn; [reflexivity|].
  destruct (tree_has t s); [apply IH | reflexivity].
Qed.

Lemma tree_walk_empty x q : tree_walk (x :: q) empty_tree = None.
Proof. reflexivity. Qed.

Lemma insert_walk_same segs t : tree_walk segs (insert_skip_path segs t) = Some empty_tree.
Proof.
  revert t. induction segs as [|s rest IH]; intros t; [reflexivity|].
  cbn [insert_skip_path tree_walk]. rewrite tree_has_set_same, tree_get_set_same. apply IH.
Qed.

Lemma insert_walk_diverge pre a b q' r' t :
  a <> b ->
  tree_walk (pre ++ a :: q') (insert_skip_path (pre ++ b :: r') t)
  = tree_walk (pre ++ a :: q') t.
Proof.
  intros Hab. revert t. induction pre as [|s pre IH]; intros t.
  - cbn [app insert_skip_path tree_walk].
    rewrite tree_has_set_other, tree_get_set_other by exact Hab. reflexivity.
  - cbn [app insert_skip_path tree_walk].
    rewrite tree_has_set_same, tree_get_set_same, IH.
    destruct (tree_has t s) eqn:E; [reflexivity|].
    rewrite (tree_get_missing _ _ E). destruct pre; reflexivity.
Qed.

Lemma insert_walk_below segs x q' t :
  tree_walk (segs ++ x :: q') (insert_skip_path segs t) = None.
Proof. rewrite tree_walk_app, insert_walk_same. reflexivity. Qed.

Lemma insert_walk_above q x r t :
  exists t', tree_walk q (insert_skip_path (q ++ x :: r) t) = Some t' /\ tree_has t' x = true.
Proof.
  revert t. induction q as [|s q IH]; intros t.
  - cbn. eexists; split; [reflexivity|]. apply tree_has_set_same.
  - cbn [app insert_skip_path tree_walk].
    rewrite tree_has_set_same, tree_get_set_same. apply IH.
Qed.

(** A leaf reached by a non-empty path makes everything below it skipped. *)
Lemma walk_leaf_skipped segs t f :
  segs <> [] -> tree_walk segs t = Some empty_tree -> skipped_by t (segs ++ f) = true.
Proof.
  revert t. induction segs as [|s rest IH]; intros t Hne H; [congruence|].
  cbn in H. destruct (tree_has t s) eqn:Hs; [|discriminate].
  cbn [app skipped_by]. rewrite Hs. cbn [andb].
  destruct rest as [|s' rest'].
  - cbn in H. injection H as ->. reflexivity.
  - rewrite (IH _ ltac:(discriminate) H). apply orb_true_r.
Qed.

Lemma split_on_nonempty sep str : split_on sep str <> [].
Proof.
  destruct str as [|c rest]; cbn; [discriminate|].
  destruct (Ascii.eqb c sep); [discriminate|]. destruct (split_on sep rest); discriminate.
Qed.

Lemma make_skip_path_tree_snoc l p :
  _make_skip_path_tree (l ++ [p]) = insert_skip_path (split_on os_path_sep p) (_make_skip_path_tree l).
Proof. unfold _make_skip_path_tree. now rewrite fold_left_app. Qed.

(** X3.  In [_make_skip_path_tree], the last path of the list wins: it
    ends on a leaf ([tree.clear()]), so [_files_in] skips every path
    below it; keys that leave its path where it goes on keep what the
    earlier paths built; everything the earlier paths put below it is
    gone; and every directory on the way to it is an inner node holding
    the next segment, so it is no longer a leaf. *)
Theorem skip_tree_last_path_wins l p :
  let segs := split_on os_path_sep p in
  let t := _make_skip_path_tree (l ++ [p]) in
  tree_walk segs t = Some empty_tree /\
  (forall f, skipped_by t (segs ++ f) = true) /\
  (forall pre a b q' r', segs = pre ++ b :: r' -> a <> b ->
     tree_walk (pre ++ a :: q') t = tree_walk (pre ++ a :: q') (_make_skip_path_tree l)) /\
  (forall x q', tree_walk (segs ++ x :: q') t = None) /\
  (forall q x r, segs = q ++ x :: r ->
     exists t', tree_walk q t = Some t' /\ tree_has t' x = true /\ tree_len t' <> 0%nat).
Proof.
  cbv zeta. rewrite make_skip_path_tree_snoc.
  split; [apply insert_walk_same|]. split.
  { intros f. apply walk_leaf_skipped; [apply split_on_nonempty | apply insert_walk_same]. }
  split.
  { intros pre a b q' r' Hs Hab. rewrite Hs. now apply insert_walk_diverge. }
  split; [intros; apply insert_walk_below|].
  intros q x r Hs. rewrite Hs.
  destruct (insert_walk_above q x r (_make_skip_path_tree l)) as [t' [Hw Hx]].
  exists t'. split; [exact Hw|]. split; [exact Hx|].
  destruct t' as [cs]. cbn in Hx |- *. destruct cs; [discriminate | cbn; lia].
Qed.

(** *** Listing files *)

Lemma bind_snd {A B} (m : M A) (k : A -> M B) s :
  snd (bind m k s) = match m s with
                     | (s', Ok a) => snd (k a s')
                     | (_, Raise e) => Raise e
                     end.
Proof. unfold bind. destruct (m s) as [s' [a|e]]; reflexivity. Qed.

Definition of_opt {A} (o : option A) : res A :=
  match o with Some a => Ok a | None => Raise OSError end.

Lemma files_in_node_res : forall n d t s,
  snd (_files_in_node d n t s) = of_opt (files_pure d n t).
Proof.
  induction n as [i dv m r data | i dv m r es IHes] using node_ind'; intros d t s.
  - reflexivity.
  - cbn [_files_in_node]. rewrite bind_snd.
    unfold listdir_node at 1, bind at 1, emit at 1. cbn [fs trace fst snd].
    destruct r; [|reflexivity].
    cbn [files_pure]. unfold ret at 1. cbv beta iota.
    generalize {| fs := fs s; trace := trace s ++ [EvListdir d] |} as s'. clear s.
    induction IHes as [| [name c] rest IHc IHrest IHgo]; intros s; [reflexivity|].
    cbn [fst snd] in *.
    destruct (_ && _); [apply IHgo|].
    destruct c as [? ? ? ? ? | ? ? ? ? ?].
    + rewrite bind_snd.
      match goal with |- match ?g rest s with _ => _ end = _ =>
        pose proof (IHgo s) as Hg; destruct (g rest s) as [s1 [l|e]] end;
      match goal with |- _ = of_opt (match ?p with _ => _ end) => destruct p end;
      unfold ret; cbn [snd of_opt] in *;
      first [discriminate Hg | injection Hg as Hg; subst; reflexivity].
    + rewrite bind_snd.
      pose proof (IHc (d ++ [name]) (tree_get t name) s) as Hc.
      destruct (_files_in_node (d ++ [name]) _ (tree_get t name) s) as [s1 [l1|e]].
      * cbn [snd] in Hc. destruct (files_pure (d ++ [name]) _ (tree_get t name)) as [l1'|];
          [|discriminate]. injection Hc as <-.
        rewrite bind_snd.
        match goal with |- match ?g rest s1 with _ => _ end = _ =>
          pose proof (IHgo s1) as Hg; destruct (g rest s1) as [s2 [l2|e]] end;
        match goal with |- _ = of_opt (match ?p with _ => _ end) => destruct p end;
        unfold ret; cbn [snd of_opt] in *;
      first [discriminate Hg | injection Hg as Hg; subst; reflexivity].
      * cbn [snd] in Hc. destruct (files_pure (d ++ [name]) _ (tree_get t name));
          [discriminate | exact Hc].
Qed.

Lemma keys_unique_find name c es :
  keys_unique es = true -> In (name, c) es -> find_entry name es = Some c.
Proof.
  induction es as [| [k c0] rest IH]; intros Hu Hin; [destruct Hin|].
  cbn in Hu. apply andb_true_iff in Hu as [Hk Hu]. cbn.
  destruct Hin as [E | Hin].
  - injection E as -> ->. now rewrite String.eqb_refl.
  - destruct (String.eqb k name) eqn:E; [|now apply IH].
    apply String.eqb_eq in E. subst k. exfalso.
    apply negb_true_iff in Hk.
    assert (Ht : existsb (fun kv => String.eqb (fst kv) name) rest = true)
      by (apply existsb_exists; exists (name, c); split; [exact Hin | apply String.eqb_refl]).
    congruence.
Qed.

Lemma find_entry_in name c es : find_entry name es = Some c -> In (name, c) es.
Proof.
  induction es as [| [k c0] rest IH]; cbn; [discriminate|].
  destruct (String.eqb k name) eqn:E; intros H.
  - injection H as ->. apply String.eqb_eq in E. subst. now left.
  - right. now apply IH.
Qed.

(** Every path [files_pure] lists is a regular file below the directory,
    not skipped. *)
Lemma files_pure_sound : forall n d t l,
  names_unique n = true -> files_pure d n t = Some l ->
  forall x, In x l ->
  exists f, x = d ++ f /\ f <> [] /\ skipped_by t f = false /\
            is_regular_file (lookup f n) = true.
Proof.
  induction n as [i dv m r data | i dv m r es IHes] using node_ind';
    intros d t l Hu Hp x Hx; [discriminate|].
  destruct r; [|discriminate]. cbn [files_pure] in Hp.
  cbn [names_unique] in Hu. apply andb_true_iff in Hu as [Hk Hch].
  match type of Hp with ?g es = Some _ => set (GO := g) in Hp end.
  match type of Hch with ?g es = true => set (CH := g) in Hch end.
  match type of IHes with Forall ?P _ => set (PP := P) in IHes end.
  assert (Inner : forall es', Forall PP es' -> CH es' = true -> forall l, GO es' = Some l ->
    forall x, In x l -> exists name c f', In (name, c) es' /\ x = d ++ name :: f' /\
      (tree_has t name && Nat.eqb 0 (tree_len (tree_get t name))) = false /\
      skipped_by (tree_get t name) f' = false /\ is_regular_file (lookup f' c) = true).
  { intros es' HF. induction HF as [| [name c] rest IHc IHrest IHgo];
      intros Hc l0 Hg x0 Hx0.
    - cbn in Hg. injection Hg as <-. destruct Hx0.
    - unfold CH in Hc. cbn [fst snd] in Hc. fold CH in Hc.
      apply andb_true_iff in Hc as [Hc1 Hc2].
      unfold GO in Hg. cbn [fst snd] in Hg. fold GO in Hg.
      destruct (tree_has t name && Nat.eqb 0 (tree_len (tree_get t name))) eqn:Hs.
      + destruct (IHgo Hc2 l0 Hg x0 Hx0) as (nm & c' & f' & Hin & H).
        exists nm, c', f'. split; [now right | exact H].
      + destruct c as [ci cd cm cr cdata | ci cd cm cr ces].
        * destruct (GO rest) as [l2|] eqn:E2; [|discriminate]. injection Hg as <-.
          destruct Hx0 as [<- | Hx0].
          -- exists name, (File ci cd cm cr cdata), []. split; [now left|].
             split; [reflexivity|]. split; [exact Hs|].
             split; [destruct (tree_get t name); reflexivity | reflexivity].
          -- destruct (IHgo Hc2 l2 eq_refl x0 Hx0) as (nm & c' & f' & Hin & H).
             exists nm, c', f'. split; [now right | exact H].
        * destruct (files_pure (d ++ [name]) _ (tree_get t name)) as [l1|] eqn:E1;
            [|discriminate].
          destruct (GO rest) as [l2|] eqn:E2; [|discriminate]. injection Hg as <-.
          apply in_app_or in Hx0 as [Hx0 | Hx0].
          -- destruct (IHc _ _ _ Hc1 E1 x0 Hx0) as (f' & -> & Hne & Hsk & Hreg).
             exists name, (Dir ci cd cm cr ces), f'. split; [now left|].
             split; [now rewrite <- app_assoc|]. repeat split; assumption.
          -- destruct (IHgo Hc2 l2 eq_refl x0 Hx0) as (nm & c' & f' & Hin & H).
             exists nm, c', f'. split; [now right | exact H]. }
  destruct (Inner es IHes Hch l Hp x Hx) as (name & c & f' & Hin & -> & Hs & Hsk & Hreg).
  exists (name :: f'). split; [reflexivity|]. split; [discriminate|].
  cbn [skipped_by lookup]. rewrite Hs, Hsk. split; [reflexivity|].
  now rewrite (keys_unique_find _ _ _ Hk Hin).
Qed.

(** Every regular file below the directory that is not skipped is listed
    by [files_pure], when it succeeds. *)
Lemma files_pure_complete : forall n d t l,
  files_pure d n t = Some l ->
  forall f, f <> [] -> skipped_by t f = false -> is_regular_file (lookup f n) = true ->
  In (d ++ f) l.
Proof.
  induction n as [i dv m r data | i dv m r es IHes] using node_ind';
    intros d t l Hp f Hne Hsk Hreg; [discriminate|].
  destruct r; [|discriminate]. cbn [files_pure] in Hp.
  destruct f as [|name f']; [congruence|].
  cbn [skipped_by] in Hsk. apply orb_false_iff in Hsk as [Hs Hsk].
  cbn [lookup] in Hreg.
  destruct (find_entry name es) as [c|] eqn:Ef; [|discriminate].
  apply find_entry_in in Ef.
  match type of Hp with ?g es = Some _ => set (GO := g) in Hp end.
  match type of IHes with Forall ?P _ => set (PP := P) in IHes end.
  revert l Hp. induction IHes as [| [nm c0] rest IHc IHrest IHgo]; intros l Hp;
    [destruct Ef|].
  unfold GO in Hp. cbn [fst snd] in Hp. fold GO in Hp.
  destruct Ef as [E | Ef].
  - injection E as -> ->. rewrite Hs in Hp.
    destruct c as [ci cd cm cr cdata | ci cd cm cr ces].
    + destruct f' as [|? ?]; [|discriminate].
      destruct (GO rest) as [l2|]; [|discriminate]. injection Hp as <-. now left.
    + destruct (files_pure (d ++ [name]) _ (tree_get t name)) as [l1|] eqn:E1;
        [|discriminate].
      destruct (GO rest) as [l2|]; [|discriminate]. injection Hp as <-.
      apply in_or_app. left.
      replace (d ++ name :: f') with ((d ++ [name]) ++ f') by now rewrite <- app_assoc.
      apply (IHc _ _ _ E1 f'); try assumption.
      destruct f'; [discriminate | congruence].
  - destruct (tree_has t nm && Nat.eqb 0 (tree_len (tree_get t nm))).
    + now apply IHgo.
    + destruct c0 as [? ? ? ? ? | ? ? ? ? ?].
      * destruct (GO rest) as [l2|]; [|discriminate]. injection Hp as <-.
        right. now apply IHgo.
      * destruct (files_pure (d ++ [nm]) _ (tree_get t nm)) as [l1|]; [|discriminate].
        destruct (GO rest) as [l2|]; [|discriminate]. injection Hp as <-.
        apply in_or_app. right. now apply IHgo.
Qed.

Lemma lookup_app a b n :
  lookup (a ++ b) n = match lookup a n with Some n' => lookup b n' | None => None end.
Proof.
  revert n. induction a as [|s a IH]; intros n; [reflexivity|].
  destruct n as [? ? ? ? ? | i dv m r es]; cbn [app lookup]; [reflexivity|].
  destruct (find_entry s es); [apply IH | reflexivity].
Qed.

Lemma names_unique_child i dv m r es k c :
  names_unique (Dir i dv m r es) = true -> In (k, c) es -> names_unique c = true.
Proof.
  induction es as [| [k0 c0] rest IH]; intros Hu Hin; [destruct Hin|].
  cbn in Hu. apply andb_true_iff in Hu as [Hk Hch].
  apply andb_true_iff in Hk as [_ Hk]. apply andb_true_iff in Hch as [Hc0 Hch].
  destruct Hin as [E | Hin]; [injection E as -> ->; exact Hc0|].
  apply IH; [|exact Hin]. cbn. now rewrite Hk, Hch.
Qed.

Lemma names_unique_lookup p : forall n n',
  names_unique n = true -> lookup p n = Some n' -> names_unique n' = true.
Proof.
  induction p as [|s p IH]; intros n n' Hu H; cbn in H; [now injection H as <-|].
  destruct n as [? ? ? ? ? | i dv m r es]; [discriminate|].
  destruct (find_entry s es) as [c|] eqn:E; [|discriminate].
  apply (IH c); [|exact H]. exact (names_unique_child _ _ _ _ _ _ _ Hu (find_entry_in _ _ _ E)).
Qed.

Lemma relpath_app d f : relpath (d ++ f) d = f.
Proof. unfold relpath. induction d; cbn; [reflexivity | exact IHd]. Qed.

(** What [files_in] returns. *)
Lemma files_in_res d ign s :
  snd (files_in d ign s)
  = match lookup d (fs s) with
    | Some n => match files_pure d n (_make_skip_path_tree ign) with
                | Some l => Ok (map (fun f => relpath f d) l)
                | None => Raise OSError
                end
    | None => Raise OSError
    end.
Proof.
  unfold files_in, _files_in. rewrite bind_snd. unfold bind at 1, get_fs at 1.
  destruct (lookup d (fs s)) as [n|].
  - pose proof (files_in_node_res n d (_make_skip_path_tree ign) s) as H.
    destruct (_files_in_node d n _ s) as [s1 r1]. cbn [snd] in H. subst r1.
    destruct (files_pure d n _); reflexivity.
  - reflexivity.
Qed.

Lemma files_in_sound d ign s rels :
  names_unique (fs s) = true -> snd (files_in d ign s) = Ok rels ->
  forall f, In f rels ->
  f <> [] /\ skipped_by (_make_skip_path_tree ign) f = false /\
  is_regular_file (lookup (d ++ f) (fs s)) = true.
Proof.
  intros Hu H f Hf. rewrite files_in_res in H.
  destruct (lookup d (fs s)) as [n|] eqn:Ed; [|discriminate].
  destruct (files_pure d n _) as [l|] eqn:Ep; [|discriminate]. injection H as <-.
  apply in_map_iff in Hf as (x & <- & Hx).
  destruct (files_pure_sound n d _ l (names_unique_lookup _ _ _ Hu Ed) Ep x Hx)
    as (f & -> & Hne & Hsk & Hreg).
  rewrite relpath_app, lookup_app, Ed. auto.
Qed.

Lemma files_in_complete d ign s rels :
  snd (files_in d ign s) = Ok rels ->
  forall f, f <> [] -> skipped_by (_make_skip_path_tree ign) f = false ->
  is_regular_file (lookup (d ++ f) (fs s)) = true -> In f rels.
Proof.
  intros H f Hne Hsk Hreg. rewrite files_in_res in H.
  destruct (lookup d (fs s)) as [n|] eqn:Ed; [|discriminate].
  destruct (files_pure d n _) as [l|] eqn:Ep; [|discriminate]. injection H as <-.
  rewrite lookup_app, Ed in Hreg.
  apply in_map_iff. exists (d ++ f). split; [apply relpath_app|].
  exact (files_pure_complete n d _ l Ep f Hne Hsk Hreg).
Qed.

Lemma files_in_raises d ign s e : snd (files_in d ign s) = Raise e -> e = OSError.
Proof.
  rewrite files_in_res. destruct (lookup d (fs s)) as [n|]; [destruct (files_pure d n _)|];
    intros H; try discriminate H; injection H as <-; reflexivity.
Qed.

(** X4.  When [files_in(directory, skip_paths)] succeeds on a tree whose
    directories have distinct entry names, it lists, as paths relative
    to [directory], exactly the regular files below [directory] that the
    skip tree does not drop: none of the directories themselves, no
    skipped file and nothing below a skipped directory. *)
Theorem files_in_lists_regular_files d ign s rels :
  names_unique (fs s) = true ->
  snd (files_in d ign s) = Ok rels ->
  forall f, In f rels <->
    (f <> [] /\ skipped_by (_make_skip_path_tree ign) f = false /\
     is_regular_file (lookup (d ++ f) (fs s)) = true).
Proof.
  intros Hu H f. split.
  - exact (files_in_sound d ign s rels Hu H f).
  - intros (Hne & Hsk & Hreg). exact (files_in_complete d ign s rels H f Hne Hsk Hreg).
Qed.

(** Where [files_pure] succeeds, every directory below that the skip
    tree does not drop can be listed. *)
Lemma files_pure_readable : forall n d t l,
  files_pure d n t = Some l ->
  forall q i dv m r es, skipped_by t q = false -> lookup q n = Some (Dir i dv m r es) ->
  r = true.
Proof.
  induction n as [i0 dv0 m0 r0 data | i0 dv0 m0 r0 es0 IHes] using node_ind';
    intros d t l Hp q i dv m r es Hsk Hq; [discriminate|].
  destruct r0; [|discriminate].
  destruct q as [|name q'].
  - cbn in Hq. now injection Hq as _ _ _ <- _.
  - cbn [files_pure] in Hp.
    cbn [skipped_by] in Hsk. apply orb_false_iff in Hsk as [Hs Hsk].
    cbn [lookup] in Hq.
    destruct (find_entry name es0) as [c|] eqn:Ef; [|discriminate].
    apply find_entry_in in Ef.
    match type of Hp with ?g es0 = Some _ => set (GO := g) in Hp end.
    match type of IHes with Forall ?P _ => set (PP := P) in IHes end.
    revert l Hp. induction IHes as [| [nm c0] rest IHc IHrest IHgo]; intros l Hp;
      [destruct Ef|].
    unfold GO in Hp. cbn [fst snd] in Hp. fold GO in Hp.
    destruct Ef as [E | Ef].
    + injection E as -> ->. rewrite Hs in Hp.
      destruct c as [ci cd cm cr cdata | ci cd cm cr ces].
      * destruct q'; discriminate.
      * destruct (files_pure (d ++ [name]) _ (tree_get t name)) as [l1|] eqn:E1;
          [|discriminate].
        exact (IHc _ _ _ E1 q' i dv m r es Hsk Hq).
    + destruct (tree_has t nm && Nat.eqb 0 (tree_len (tree_get t nm))).
      * exact (IHgo Ef l Hp).
      * destruct c0 as [? ? ? ? ? | ? ? ? ? ?].
        -- destruct (GO rest) as [l2|]; [|discriminate]. exact (IHgo Ef l2 eq_refl).
        -- destruct (files_pure (d ++ [nm]) _ (tree_get t nm)) as [l1|]; [|discriminate].
           destruct (GO rest) as [l2|]; [|discriminate]. exact (IHgo Ef l2 eq_refl).
Qed.

(** X5.  [files_in] raises nothing but [OSError].  It raises it when
    the directory is missing or is a regular file, and when the
    directory itself, or any directory below it that the skip tree does
    not drop, cannot be listed: an unreadable directory is harmless only
    when it is skipped. *)
Theorem files_in_errors d ign s :
  (forall e, snd (files_in d ign s) = Raise e -> e = OSError) /\
  (match lookup d (fs s) with Some (Dir _ _ _ _ _) => False | _ => True end ->
   snd (files_in d ign s) = Raise OSError) /\
  (forall q i dv m es,
     skipped_by (_make_skip_path_tree ign) q = false ->
     lookup (d ++ q) (fs s) = Some (Dir i dv m false es) ->
     snd (files_in d ign s) = Raise OSError).
Proof.
  split; [apply files_in_raises|]. split.
  - intros H. rewrite files_in_res.
    destruct (lookup d (fs s)) as [[? ? ? ? ? | ? ? ? ? ?]|]; try contradiction; reflexivity.
  - intros q i dv m es Hsk Hq. rewrite files_in_res.
    rewrite lookup_app in Hq.
    destruct (lookup d (fs s)) as [n|]; [|discriminate].
    destruct (files_pure d n _) as [l|] eqn:Ep; [|reflexivity].
    pose proof (files_pure_readable n d _ l Ep q i dv m false es Hsk Hq). discriminate.
Qed.

(** *** What the judges guarantee *)

Lemma path_eqb_eq a b : path_eqb a b = true <-> a = b.
Proof.
  revert b. induction a as [|x a IH]; intros [|y b]; cbn; split; intros H;
    try discriminate; try reflexivity.
  - apply andb_true_iff in H as [Hx Hab]. apply String.eqb_eq in Hx.
    apply IH in Hab. now subst.
  - injection H as <- <-. rewrite String.eqb_refl. now apply IH.
Qed.

Lemma path_mem_in f l : path_mem f l = true <-> In f l.
Proof.
  unfold path_mem. rewrite existsb_exists. split.
  - intros (x & Hx & E). apply path_eqb_eq in E. now subst.
  - intros H. exists f. split; [exact H | now apply path_eqb_eq].
Qed.

Lemma py_set_in x l : In x (py_set l) <-> In x l.
Proof.
  induction l as [|y rest IH]; cbn; [tauto|].
  destruct (path_mem y rest) eqn:E.
  - apply path_mem_in in E. rewrite IH. split; [tauto|].
    intros [<- | H]; assumption.
  - cbn. rewrite IH. tauto.
Qed.

Lemma first_content_mismatch_none d c files s :
  snd (first_content_mismatch d c files s) = Ok None ->
  forall f, In f files -> snd (same_content (d ++ f) (c ++ f) s) = Ok true.
Proof.
  revert s. induction files as [|f0 rest IH]; intros s H f Hf; [destruct Hf|].
  cbn [first_content_mismatch] in H. rewrite bind_run in H by (eauto with observer_db).
  cbn [fs trace] in H.
  rewrite (snd_run (same_content (d ++ f) (c ++ f)) s) by (eauto with observer_db).
  destruct (snd (same_content (d ++ f0) (c ++ f0) (mk_state (fs s) []))) as [[]|e] eqn:E;
    cbv beta iota in H; [|discriminate|discriminate].
  destruct Hf as [<- | Hf]; [exact E|].
  pose proof (IH _ H f Hf) as H'. clear H. rename H' into H.
  now rewrite (snd_run (same_content (d ++ f) (c ++ f)) _) in H by (eauto with observer_db).
Qed.

Lemma same_content_true f1 f2 s :
  snd (same_content f1 f2 s) = Ok true ->
  exists i1 dv1 m1 i2 dv2 m2 data,
    lookup f1 (fs s) = Some (File i1 dv1 m1 true data) /\
    lookup f2 (fs s) = Some (File i2 dv2 m2 true data).
Proof.
  rewrite same_content_res.
  destruct (lookup f1 (fs s)) as [n1|], (lookup f2 (fs s)) as [n2|];
    try discriminate.
  destruct (Z.eqb _ _); [|discriminate].
  destruct n1 as [i1 dv1 m1 [] data1 | ? ? ? ? ?], n2 as [i2 dv2 m2 [] data2 | ? ? ? ? ?];
    try discriminate.
  intros H. injection H as H. apply bytes_eqb_eq in H. subst data2.
  exists i1, dv1, m1, i2, dv2, m2, data1. auto.
Qed.

(** The copies behind a [None] from [not_duplicate_dir_reason]. *)
Lemma not_duplicate_dir_reason_none d c ign s :
  names_unique (fs s) = true ->
  snd (not_duplicate_dir_reason d c ign s) = Ok None ->
  forall f, f <> [] -> skipped_by (_make_skip_path_tree ign) f = false ->
  is_regular_file (lookup (c ++ f) (fs s)) = true ->
  exists i1 dv1 m1 i2 dv2 m2 data,
    lookup (d ++ f) (fs s) = Some (File i1 dv1 m1 true data) /\
    lookup (c ++ f) (fs s) = Some (File i2 dv2 m2 true data).
Proof.
  intros Hu H f Hne Hsk Hreg. unfold not_duplicate_dir_reason in H.
  rewrite bind_run in H by (eauto with observer_db). cbn [fs trace] in H.
  destruct (snd (same_file_or_dir d c (mk_state (fs s) []))) as [[]|e];
    cbv beta iota in H; [discriminate | | discriminate].
  rewrite bind_run in H by (eauto with observer_db). cbn [fs trace] in H.
  destruct (snd (files_in c ign (mk_state (fs s) []))) as [cands|e] eqn:Hc;
    cbv beta iota in H; [|discriminate].
  rewrite bind_run in H by (eauto with observer_db). cbn [fs trace] in H.
  destruct (snd (files_in d [] (mk_state (fs s) []))) as [origs|e];
    cbv beta iota in H; [|discriminate].
  destruct (set_minus _ _); [|discriminate].
  rewrite bind_run in H by (eauto with observer_db). cbn [fs trace] in H.
  rewrite first_size_mismatch_res in H. cbn [fs] in H.
  destruct (find _ _); cbv beta iota in H; [discriminate|].
  unfold bind at 1, emit at 1 in H. cbn [fs trace] in H.
  assert (Hin : In f (py_set cands)).
  { apply py_set_in. apply (files_in_complete c ign (mk_state (fs s) [])); assumption. }
  pose proof (first_content_mismatch_none d c _ _ H f Hin) as Hsc.
  apply same_content_true in Hsc. exact Hsc.
Qed.

(** The files behind a [None] from [not_duplicate_file_reason]. *)
Lemma not_duplicate_file_reason_none f1 f2 s :
  snd (not_duplicate_file_reason f1 f2 s) = Ok None ->
  exists i1 dv1 m1 i2 dv2 m2 data,
    lookup f1 (fs s) = Some (File i1 dv1 m1 true data) /\
    lookup f2 (fs s) = Some (File i2 dv2 m2 true data) /\
    stat_eqb (stat_of (File i1 dv1 m1 true data)) (stat_of (File i2 dv2 m2 true data)) = false.
Proof.
  intros H. unfold not_duplicate_file_reason in H.
  rewrite bind_run in H by (eauto with observer_db). cbn [fs trace] in H.
  destruct (snd (same_file_or_dir f1 f2 (mk_state (fs s) []))) as [[]|e] eqn:Hs;
    cbv beta iota in H; [discriminate | | discriminate].
  rewrite bind_run in H by (eauto with observer_db). cbn [fs trace] in H.
  destruct (snd (same_content f1 f2 (mk_state (fs s) []))) as [[]|e] eqn:Hc;
    cbv beta iota in H; [|discriminate|discriminate].
  destruct (same_content_true _ _ _ Hc) as (i1 & dv1 & m1 & i2 & dv2 & m2 & data & H1 & H2).
  cbn [fs] in H1, H2.
  exists i1, dv1, m1, i2, dv2, m2, data. split; [exact H1|]. split; [exact H2|].
  rewrite same_file_or_dir_res in Hs. cbn [fs] in Hs. rewrite H1, H2 in Hs.
  injection Hs as Hs. exact Hs.
Qed.

(** X6.  When [not_duplicate_dir_reason(directory, duplicate_candidate,
    ignored_differences)] returns [None] (the candidate may be removed),
    every regular file below the candidate that the ignore list does not
    skip has a copy at the same relative path below [directory]: both
    are readable regular files holding the same bytes.  Directory
    entries are taken to have distinct names. *)
Theorem not_duplicate_dir_reason_sound d c ign s :
  names_unique (fs s) = true ->
  snd (not_duplicate_dir_reason d c ign s) = Ok None ->
  forall f, f <> [] -> skipped_by (_make_skip_path_tree ign) f = false ->
  is_regular_file (lookup (c ++ f) (fs s)) = true ->
  exists i1 dv1 m1 i2 dv2 m2 data,
    lookup (d ++ f) (fs s) = Some (File i1 dv1 m1 true data) /\
    lookup (c ++ f) (fs s) = Some (File i2 dv2 m2 true data).
Proof. exact (not_duplicate_dir_reason_none d c ign s). Qed.

(** X7.  When [not_duplicate_file_reason(fname1, fname2)] returns [None],
    the two paths are readable regular files holding the same bytes, and
    their [os.stat] results differ (they are not the same file). *)
Theorem not_duplicate_file_reason_sound f1 f2 s :
  snd (not_duplicate_file_reason f1 f2 s) = Ok None ->
  exists i1 dv1 m1 i2 dv2 m2 data,
    lookup f1 (fs s) = Some (File i1 dv1 m1 true data) /\
    lookup f2 (fs s) = Some (File i2 dv2 m2 true data) /\
    stat_eqb (stat_of (File i1 dv1 m1 true data)) (stat_of (File i2 dv2 m2 true data)) = false.
Proof. exact (not_duplicate_file_reason_none f1 f2 s). Qed.

(** *** Removal *)

Lemma find_drop_entry_other s name es :
  s <> name -> find_entry s (drop_entry name es) = find_entry s es.
Proof.
  intros Hne. induction es as [| [k c] rest IH]; cbn; [reflexivity|].
  destruct (String.eqb k name) eqn:E.
  - apply String.eqb_eq in E. subst k.
    apply String.eqb_neq in Hne. rewrite String.eqb_sym, Hne. exact IH.
  - cbn. destruct (String.eqb k s); [reflexivity | exact IH].
Qed.

Lemma find_replace_entry_other s name c' es :
  s <> name -> find_entry s (replace_entry name c' es) = find_entry s es.
Proof.
  intros Hne. induction es as [| [k c] rest IH]; cbn; [reflexivity|].
  destruct (String.eqb k name) eqn:E; cbn.
  - apply String.eqb_eq in E. subst k.
    apply String.eqb_neq in Hne. now rewrite String.eqb_sym, Hne.
  - destruct (String.eqb k s); [reflexivity | exact IH].
Qed.

(** Unlinking [p] changes nothing outside [p], except that the
    directories on the way to [p] lose an entry. *)
Lemma unlink_other p : forall n n' q,
  unlink p n = Some n' -> path_prefix p q = false ->
  lookup q n' = lookup q n \/
  exists i dv m r es es',
    lookup q n = Some (Dir i dv m r es) /\ lookup q n' = Some (Dir i dv m r es').
Proof.
  induction p as [| s0 rest IH]; intros n n' q H Hq; [discriminate|].
  destruct n as [? ? ? ? ? | i dv m r es]; [destruct rest; discriminate|].
  destruct rest as [| s1 rest'].
  - cbn in H. destruct (find_entry s0 es); [|discriminate]. injection H as <-.
    destruct q as [| s q'].
    + right. cbn. eauto 10.
    + left. cbn in Hq. rewrite andb_true_r in Hq. apply String.eqb_neq in Hq.
      cbn [lookup]. rewrite find_drop_entry_other by congruence. reflexivity.
  - change (match find_entry s0 es with
            | Some c =>
                match unlink (s1 :: rest') c with
                | Some c' => Some (Dir i dv m r (replace_entry s0 c' es))
                | None => None
                end
            | None => None
            end = Some n') in H.
    destruct (find_entry s0 es) as [c|] eqn:Ec; [|discriminate].
    destruct (unlink (s1 :: rest') c) as [c'|] eqn:Eu; [|discriminate].
    injection H as <-.
    destruct q as [| s q'].
    + right. cbn. eauto 10.
    + cbn [path_prefix] in Hq. cbn [lookup].
      destruct (String.eqb s0 s) eqn:Es.
      * apply String.eqb_eq in Es. subst s. cbn [andb] in Hq.
        rewrite (find_replace_entry _ _ _ _ Ec), Ec. exact (IH _ _ _ Eu Hq).
      * apply String.eqb_neq in Es. left.
        rewrite find_replace_entry_other by congruence. reflexivity.
Qed.



Lemma remove_file_or_dir_run p s :
  remove_file_or_dir p s
  = match unlink p (fs s) with
    | Some root' => (mk_state root' (trace s ++ [EvStat p; EvPrint (MsgRemoving p); EvRemove p]),
                     Ok tt)
    | None => (mk_state (fs s) (trace s ++ [EvStat p; EvPrint (MsgRemoving p); EvRemove p]),
               Raise OSError)
    end.
Proof.
  destruct s as [root tr]. cbn [fs trace].
  unfold remove_file_or_dir, os_path_isdir, unlink_path, except_oserror, os_stat,
    bind, emit, get_fs, ret, raise. cbn.
  destruct (lookup p root) as [[]|] eqn:E; cbn; rewrite ?E; cbn;
    destruct (unlink p root); cbn; rewrite <- ?app_assoc; reflexivity.
Qed.


(** *** [process_duplicate] *)

(** The judge [process_duplicate] picks for the node at the candidate. *)
Definition judge_for (orig dup : path) (ign : list string) (n : node) : M (option reason) :=
  match n with
  | Dir _ _ _ _ _ => not_duplicate_dir_reason orig dup ign
  | File _ _ _ _ _ => not_duplicate_file_reason orig dup
  end.

Lemma judge_for_observer orig dup ign n : observer (judge_for orig dup ign n).
Proof. destruct n; cbn; eauto with observer_db. Qed.
#[global] Hint Resolve judge_for_observer : observer_db.

Lemma process_duplicate_run orig dup ign process s :
  process_duplicate orig dup ign process s =
  match lookup dup (fs s) with
  | None => (mk_state (fs s) (trace s ++ [EvStat dup]),
             Raise (NotDuplicate orig dup (RNotExist dup)))
  | Some n =>
      let tr := trace s ++ trace (fst (os_path_exists dup (mk_state (fs s) [])))
                ++ trace (fst (os_path_isdir dup (mk_state (fs s) [])))
                ++ trace (fst (judge_for orig dup ign n (mk_state (fs s) []))) in
      match snd (judge_for orig dup ign n (mk_state (fs s) [])) with
      | Ok None => process dup (mk_state (fs s) tr)
      | Ok (Some r) => (mk_state (fs s) tr, Raise (NotDuplicate orig dup r))
      | Raise e => (mk_state (fs s) tr, Raise e)
      end
  end.
Proof.
  destruct (lookup dup (fs s)) as [n|] eqn:E.
  - unfold process_duplicate. run_bind. rewrite os_path_exists_res. cbn [fs]. rewrite E.
    cbn [negb]. run_bind. rewrite os_path_isdir_res. cbn [fs]. rewrite E.
    destruct n as [? ? ? ? ? | ? ? ? ? ?]; cbv beta iota; run_bind; cbn [judge_for];
      (destruct (snd _) as [[r|]|e]; rewrite <- !app_assoc; reflexivity).
  - destruct s as [root tr]. cbn [fs] in E |- *.
    unfold process_duplicate, os_path_exists, except_oserror, os_stat, bind, emit, get_fs.
    cbn. rewrite E. reflexivity.
Qed.

(** X9.  The dry run ([process=print_duplicate], the [-n] option) never
    changes the filesystem, whatever the paths and whatever the outcome;
    when it returns normally, the last thing it did is print 'in non
    dry-run mode, "duplicate" would be removed'. *)
Theorem dry_run_changes_nothing orig dup ign s :
  fs (fst (process_duplicate orig dup ign print_duplicate s)) = fs s /\
  (snd (process_duplicate orig dup ign print_duplicate s) = Ok tt ->
   exists tr, trace (fst (process_duplicate orig dup ign print_duplicate s))
              = tr ++ [EvPrint (MsgWouldRemove dup)]).
Proof.
  rewrite process_duplicate_run.
  destruct (lookup dup (fs s)) as [n|]; [|split; [reflexivity | discriminate]].
  cbv zeta. destruct (snd _) as [[r|]|e]; (split; [reflexivity|]); try discriminate.
  intros _. cbn. eauto.
Qed.

(** X10.  When the candidate exists and the judge for it returns [None],
    [process_duplicate] ends by calling the action once, on the
    candidate path, on the unchanged filesystem: what it did before does
    not depend on the action. *)
Theorem process_duplicate_calls_process orig dup ign s n :
  lookup dup (fs s) = Some n ->
  snd (judge_for orig dup ign n s) = Ok None ->
  exists tr, forall process,
    process_duplicate orig dup ign process s = process dup (mk_state (fs s) tr).
Proof.
  intros E H. rewrite (snd_run _ s) in H by (eauto with observer_db).
  eexists. intros process. rewrite process_duplicate_run, E. cbv zeta. rewrite H.
  reflexivity.
Qed.

(** X11.  When [process_duplicate(orig, duplicate, ignored_differences)]
    with the default action returns normally, the candidate is gone, and
    every regular file the candidate held that the ignore list does not
    skip (the candidate itself, when it is a file) had a copy at the same
    relative path below [orig]: both readable regular files with the same
    bytes.  That copy is still there afterwards unless it lies inside the
    candidate.  Directory entries are taken to have distinct names. *)
Theorem process_duplicate_remove_safe orig dup ign s s' :
  names_unique (fs s) = true ->
  process_duplicate orig dup ign remove_file_or_dir s = (s', Ok tt) ->
  lookup dup (fs s') = None /\
  forall f, skipped_by (_make_skip_path_tree ign) f = false ->
    is_regular_file (lookup (dup ++ f) (fs s)) = true ->
    exists i1 dv1 m1 i2 dv2 m2 data,
      lookup (orig ++ f) (fs s) = Some (File i1 dv1 m1 true data) /\
      lookup (dup ++ f) (fs s) = Some (File i2 dv2 m2 true data) /\
      (path_prefix dup (orig ++ f) = false ->
       lookup (orig ++ f) (fs s') = lookup (orig ++ f) (fs s)).
Proof.
  intros Hu H. rewrite process_duplicate_run in H.
  destruct (lookup dup (fs s)) as [n|] eqn:E; [|discriminate]. cbv zeta in H.
  destruct (snd (judge_for orig dup ign n (mk_state (fs s) []))) as [[r|]|e] eqn:J;
    try discriminate.
  split; [exact (remove_file_or_dir_gone _ _ _ H)|].
  rewrite remove_file_or_dir_run in H. cbn [fs] in H.
  destruct (unlink dup (fs s)) as [root'|] eqn:U; [|discriminate]. injection H as <-.
  cbn [fs].
  intros f Hsk Hreg.
  assert (Hcopy : exists i1 dv1 m1 i2 dv2 m2 data,
      lookup (orig ++ f) (fs s) = Some (File i1 dv1 m1 true data) /\
      lookup (dup ++ f) (fs s) = Some (File i2 dv2 m2 true data)).
  { destruct n as [? ? ? ? ? | ? ? ? ? ?]; cbn [judge_for] in J.
    - destruct f as [|x f'].
      + rewrite !app_nil_r.
        destruct (not_duplicate_file_reason_none _ _ _ J)
          as (i1 & dv1 & m1 & i2 & dv2 & m2 & bs & H1 & H2 & _).
        exists i1, dv1, m1, i2, dv2, m2, bs. auto.
      + rewrite lookup_app, E in Hreg. discriminate.
    - destruct f as [|x f'].
      + rewrite app_nil_r, E in Hreg. discriminate.
      + exact (not_duplicate_dir_reason_none orig dup ign (mk_state (fs s) []) Hu J
                 (x :: f') ltac:(discriminate) Hsk Hreg). }
  destruct Hcopy as (i1 & dv1 & m1 & i2 & dv2 & m2 & data & H1 & H2).
  exists i1, dv1, m1, i2, dv2, m2, data. split; [exact H1|]. split; [exact H2|].
  intros Hp. destruct (unlink_other dup (fs s) root' (orig ++ f) U Hp)
    as [Hq | (? & ? & ? & ? & ? & ? & Hd & _)]; [exact Hq | congruence].
Qed.

(** X12.  Nothing keeps the original out of the candidate: when [orig]
    lies inside [duplicate] and [process_duplicate] with the default
    action returns normally, the original is gone too. *)
Theorem process_duplicate_removes_original_inside orig dup ign s s' :
  path_prefix dup orig = true ->
  process_duplicate orig dup ign remove_file_or_dir s = (s', Ok tt) ->
  lookup orig (fs s') = None.
Proof.
  intros Hp H. rewrite process_duplicate_run in H.
  destruct (lookup dup (fs s)) as [n|]; [|discriminate]. cbv zeta in H.
  destruct (snd (judge_for orig dup ign n (mk_state (fs s) []))) as [[r|]|e];
    try discriminate.
  apply remove_file_or_dir_gone in H.
  assert (Hsplit : exists rest, orig = dup ++ rest).
  { clear H. revert orig Hp. induction dup as [|x dup IH]; intros orig Hp;
      [now exists orig|].
    destruct orig as [|y orig]; cbn in Hp; [discriminate|].
    apply andb_true_iff in Hp as [Hxy Hp]. apply String.eqb_eq in Hxy. subst y.
    destruct (IH orig Hp) as [rest ->]. now exists rest. }
  destruct Hsplit as [rest ->]. now rewrite lookup_app, H.
Qed.

(** X13.  With a missing original, a candidate directory makes
    [process_duplicate] raise [OSError] (listing the original fails), so
    the script stops with a traceback instead of a 'not duplicates'
    message; a candidate file gets [NotDuplicate] with 'files ... differ'
    (the sizes cannot be compared). *)
Theorem process_duplicate_missing_original orig dup ign process s :
  lookup orig (fs s) = None ->
  (forall i dv m r es, lookup dup (fs s) = Some (Dir i dv m r es) ->
     snd (process_duplicate orig dup ign process s) = Raise OSError) /\
  (forall i dv m r data, lookup dup (fs s) = Some (File i dv m r data) ->
     snd (process_duplicate orig dup ign process s)
     = Raise (NotDuplicate orig dup (RFilesDiffer orig dup))).
Proof.
  intros Ho. split.
  - intros i dv m r es E. rewrite process_duplicate_run, E. cbv zeta. cbn [judge_for].
    assert (J : snd (not_duplicate_dir_reason orig dup ign (mk_state (fs s) []))
                = Raise OSError).
    { unfold not_duplicate_dir_reason. run_bind. rewrite same_file_or_dir_res.
      cbn [fs]. rewrite Ho. cbv beta iota.
      run_bind. destruct (snd (files_in dup ign _)) as [cands|e] eqn:Hc.
      - run_bind. rewrite files_in_res. cbn [fs]. rewrite Ho. reflexivity.
      - cbn. now rewrite (files_in_raises _ _ _ _ Hc). }
    rewrite J. reflexivity.
  - intros i dv m r data E. rewrite process_duplicate_run, E. cbv zeta. cbn [judge_for].
    assert (J : snd (not_duplicate_file_reason orig dup (mk_state (fs s) []))
                = Ok (Some (RFilesDiffer orig dup))).
    { unfold not_duplicate_file_reason. run_bind. rewrite same_file_or_dir_res.
      cbn [fs]. rewrite Ho. cbv beta iota.
      run_bind. rewrite same_content_res. cbn [fs]. rewrite Ho. reflexivity. }
    rewrite J. reflexivity.
Qed.

(** *** The extra-files reason *)

Definition path_le (a b : path) : Prop := String.leb (path_str a) (path_str b) = true.

Lemma insert_sorted_perm x l : Permutation (insert_sorted x l) (x :: l).
Proof.
  induction l as [|y rest IH]; cbn; [reflexivity|].
  destruct (String.leb (path_str y) (path_str x)); [|reflexivity].
  rewrite IH. apply perm_swap.
Qed.

Lemma sorted_perm l : Permutation (sorted l) l.
Proof.
  induction l as [|x rest IH]; cbn; [reflexivity|].
  rewrite insert_sorted_perm. now apply perm_skip.
Qed.

Lemma insert_sorted_hd y x l :
  path_le y x -> HdRel path_le y l -> HdRel path_le y (insert_sorted x l).
Proof.
  intros Hyx Hl. destruct l as [|z rest]; cbn; [now constructor|].
  destruct (String.leb (path_str z) (path_str x)); constructor; [now inversion Hl | exact Hyx].
Qed.

Lemma insert_sorted_sorted x l : Sorted path_le l -> Sorted path_le (insert_sorted x l).
Proof.
  induction l as [|y rest IH]; intros Hs; cbn; [now repeat constructor|].
  destruct (String.leb (path_str y) (path_str x)) eqn:E.
  - apply Sorted_inv in Hs as [Hs Hhd]. constructor; [now apply IH|].
    now apply insert_sorted_hd.
  - constructor; [exact Hs|]. constructor. unfold path_le.
    destruct (String.leb_total (path_str x) (path_str y)) as [H|H]; [exact H | congruence].
Qed.

Lemma sorted_sorted l : Sorted path_le (sorted l).
Proof. induction l as [|x rest IH]; cbn; [constructor | now apply insert_sorted_sorted]. Qed.

Lemma py_set_nodup l : NoDup (py_set l).
Proof.
  induction l as [|x rest IH]; cbn; [constructor|].
  destruct (path_mem x rest) eqn:E; [exact IH|].
  constructor; [|exact IH]. rewrite py_set_in. intros H.
  apply path_mem_in in H. congruence.
Qed.

Lemma set_minus_in f a b : In f (set_minus a b) <-> In f a /\ ~ In f b.
Proof.
  unfold set_minus. rewrite filter_In, negb_true_iff.
  split; intros [H1 H2]; split; try exact H1.
  - intros Hb. apply path_mem_in in Hb. congruence.
  - destruct (path_mem f b) eqn:E; [|reflexivity]. apply path_mem_in in E. contradiction.
Qed.

Lemma first_content_mismatch_some d c files s r :
  snd (first_content_mismatch d c files s) = Ok (Some r) ->
  exists f1 f2, r = RFilesDiffer f1 f2.
Proof.
  revert s. induction files as [|f0 rest IH]; intros s H; [discriminate|].
  cbn [first_content_mismatch] in H. rewrite bind_run in H by (eauto with observer_db).
  cbn [fs trace] in H.
  destruct (snd (same_content _ _ _)) as [[]|e]; cbv beta iota in H; [| |discriminate].
  - exact (IH _ H).
  - injection H as <-. eauto.
Qed.

(** X14.  When [not_duplicate_dir_reason] reports extra files, the list
    in the reason is not empty, has no duplicates and is sorted (by the
    relative path strings); it holds exactly the files listed in the
    candidate (with the ignore list) and not listed in [directory]. *)
Theorem extra_files_reason d c ign s l :
  snd (not_duplicate_dir_reason d c ign s) = Ok (Some (RExtraFiles l)) ->
  l <> [] /\ NoDup l /\ Sorted path_le l /\
  exists cands origs,
    snd (files_in c ign s) = Ok cands /\ snd (files_in d [] s) = Ok origs /\
    forall f, In f l <-> In f cands /\ ~ In f origs.
Proof.
  intros H. unfold not_duplicate_dir_reason in H.
  rewrite (snd_run (files_in c ign) s), (snd_run (files_in d []) s)
    by (eauto with observer_db).
  rewrite bind_run in H by (eauto with observer_db). cbn [fs trace] in H.
  destruct (snd (same_file_or_dir d c (mk_state (fs s) []))) as [[]|e];
    cbv beta iota in H; [discriminate | | discriminate].
  rewrite bind_run in H by (eauto with observer_db). cbn [fs trace] in H.
  destruct (snd (files_in c ign (mk_state (fs s) []))) as [cands|e];
    cbv beta iota in H; [|discriminate].
  rewrite bind_run in H by (eauto with observer_db). cbn [fs trace] in H.
  destruct (snd (files_in d [] (mk_state (fs s) []))) as [origs|e];
    cbv beta iota in H; [|discriminate].
  destruct (set_minus (py_set cands) (py_set origs)) as [|x xs] eqn:Ex.
  - exfalso.
    rewrite bind_run in H by (eauto with observer_db). cbn [fs trace] in H.
    rewrite first_size_mismatch_res in H.
    destruct (find _ _); cbv beta iota in H; [discriminate|].
    unfold bind at 1, emit at 1 in H. cbn [fs trace] in H.
    destruct (first_content_mismatch_some _ _ _ _ _ H) as (? & ? & E). discriminate.
  - unfold ret in H. cbn [snd] in H. injection H as <-.
    change (insert_sorted x (sorted xs)) with (sorted (x :: xs)).
    split; [intros E; pose proof (sorted_perm (x :: xs)) as P; rewrite E in P;
           apply Permutation_nil in P; discriminate|].
    split.
    { apply (Permutation_NoDup (Permutation_sym (sorted_perm _))). rewrite <- Ex.
      apply NoDup_filter, py_set_nodup. }
    split; [apply sorted_sorted|].
    exists cands, origs. split; [reflexivity|]. split; [reflexivity|].
    intros f. rewrite <- (py_set_in f cands), <- (py_set_in f origs), <- set_minus_in, Ex.
    split; [apply Permutation_in, sorted_perm|].
    apply Permutation_in, Permutation_sym, sorted_perm.
Qed.

(** *** How many blocks [same_content] reads *)

Lemma compare_blocks_trace fuel n p1 p2 bs s :
  (0 < n)%Z -> (List.length bs < fuel)%nat ->
  exists k, (Z.of_nat (List.length bs) <= Z.of_nat k * n)%Z /\
    (forall j, (j < k)%nat -> (Z.of_nat j * n < Z.of_nat (List.length bs))%Z) /\
    compare_blocks fuel (fun h => file_read h n) (mk_handle p1 bs) (mk_handle p2 bs) s
    = (mk_state (fs s) (trace s ++ List.concat (List.repeat [EvRead p1; EvRead p2] (S k))), Ok true).
Proof.
  intros Hn. revert bs s. induction fuel as [|fuel IH]; intros bs s Hf; [lia|].
  cbn [compare_blocks].
  erewrite bind_ok; [|apply file_read_eq].
  erewrite bind_ok; [|apply file_read_eq].
  unfold read_result; cbn [h_rest h_path fs trace].
  assert (Hneg : Z.ltb n 0 = false) by (apply Z.ltb_ge; lia). rewrite Hneg.
  rewrite bytes_eqb_refl. cbn [negb].
  destruct (take_z n bs) as [|x xs] eqn:Et.
  - apply take_z_nil in Et; [|exact Hn]. subst bs.
    exists 0%nat. split; [cbn; lia|]. split; [intros j Hj; lia|].
    unfold ret. cbn. now rewrite <- app_assoc.
  - pose proof (take_drop_z n bs) as E. rewrite Et in E.
    pose proof (f_equal (@List.length byte) E) as L. rewrite length_app in L.
    pose proof (length_take_z n bs) as Lt. rewrite Et in Lt. cbn [List.length] in L, Lt.
    destruct (IH (drop_z n bs) (mk_state (fs s) ((trace s ++ [EvRead p1]) ++ [EvRead p2])))
      as (k & Hk1 & Hk2 & Hrun); [lia|].
    exists (S k). split; [|split].
    + rewrite Nat2Z.inj_succ. nia.
    + intros [|j] Hj; [lia|]. specialize (Hk2 j ltac:(lia)). rewrite Nat2Z.inj_succ. nia.
    + rewrite Hrun. cbn [fs trace]. f_equal. f_equal.
      change (List.concat (List.repeat [EvRead p1; EvRead p2] (S (S k))))
        with ([EvRead p1; EvRead p2] ++ List.concat (List.repeat [EvRead p1; EvRead p2] (S k))).
      now rewrite <- !app_assoc.
Qed.

(** X15.  Comparing two readable files with the same bytes, with
    [file.read(n)] as reader for some [n > 0] ([_read_block] has
    [n = READ_BUFFER_SIZE]), stats both files, opens both, then reads
    each of them [k + 1] times in turn, where [k] is the number of
    [n]-byte blocks the data takes (the last read finds the end); the
    result is [True] and the file system is not changed. *)
Theorem same_content_read_rounds f1 f2 s n i1 dv1 m1 i2 dv2 m2 bs :
  (0 < n)%Z ->
  lookup f1 (fs s) = Some (File i1 dv1 m1 true bs) ->
  lookup f2 (fs s) = Some (File i2 dv2 m2 true bs) ->
  exists k, (Z.of_nat (List.length bs) <= Z.of_nat k * n)%Z /\
    (forall j, (j < k)%nat -> (Z.of_nat j * n < Z.of_nat (List.length bs))%Z) /\
    same_content_with (fun h => file_read h n) f1 f2 s
    = (mk_state (fs s) (trace s ++ [EvStat f1; EvStat f2; EvOpen f1; EvOpen f2]
                        ++ List.concat (List.repeat [EvRead f1; EvRead f2] (S k))), Ok true).
Proof.
  intros Hn H1 H2.
  destruct (compare_blocks_trace (S (List.length bs)) n f1 f2 bs
              (mk_state (fs s) (trace s ++ [EvStat f1; EvStat f2; EvOpen f1; EvOpen f2])))
    as (k & Hk1 & Hk2 & Hrun); [exact Hn | lia|].
  exists k. split; [exact Hk1|]. split; [exact Hk2|].
  unfold same_content_with. run_bind.
  rewrite same_size_res. cbn [fs]. rewrite H1, H2. cbn [stat_of st_size].
  rewrite Z.eqb_refl. cbn [negb].
  run_bind. rewrite open_rb_res. cbn [fs]. rewrite H1.
  run_bind. rewrite open_rb_res. cbn [fs]. rewrite H2. cbn [h_rest].
  assert (Ht : trace (fst (same_size f1 f2 (mk_state (fs s) []))) = [EvStat f1; EvStat f2]).
  { unfold same_size, except_oserror, getsize, os_stat, bind, emit, get_fs, ret.
    cbn. rewrite H1. cbn. rewrite H2. cbn. now rewrite Z.eqb_refl. }
  assert (Ho1 : trace (fst (open_rb f1 (mk_state (fs s) []))) = [EvOpen f1]).
  { unfold open_rb, bind, emit, get_fs, ret. cbn. now rewrite H1. }
  assert (Ho2 : trace (fst (open_rb f2 (mk_state (fs s) []))) = [EvOpen f2]).
  { unfold open_rb, bind, emit, get_fs, ret. cbn. now rewrite H2. }
  cbn [fs trace] in Hrun. rewrite Ht, ?Ho1, ?Ho2. rewrite <- !app_assoc. cbn [app].
  rewrite <- !app_assoc in Hrun. cbn [app] in Hrun. rewrite Hrun. now rewrite <- ?app_assoc.
Qed.

(** *** Which exceptions the judges raise *)

(** [env_errors_only m]: the only exceptions [m] raises are [OSError] and
    [IOError], never [NotDuplicate]. *)
Definition env_errors_only {A} (m : M A) : Prop :=
  forall s e, snd (m s) = Raise e -> e = OSError \/ e = IOError.

Lemma ret_env {A} (a : A) : env_errors_only (ret a).
Proof. intros s e H. discriminate H. Qed.

Lemma raise_oserror_env {A} : env_errors_only (@raise A OSError).
Proof. intros s e H. injection H as <-. now left. Qed.

Lemma raise_ioerror_env {A} : env_errors_only (@raise A IOError).
Proof. intros s e H. injection H as <-. now right. Qed.

Lemma emit_env ev : env_errors_only (emit ev).
Proof. intros s e H. discriminate H. Qed.

Lemma get_fs_env : env_errors_only get_fs.
Proof. intros s e H. discriminate H. Qed.

Lemma bind_env {A B} (m : M A) (k : A -> M B) :
  env_errors_only m -> (forall a, env_errors_only (k a)) -> env_errors_only (bind m k).
Proof.
  intros Hm Hk s e H. unfold bind in H.
  destruct (m s) as [s1 [a | e1]] eqn:E.
  - exact (Hk a s1 e H).
  - cbn in H. injection H as <-. apply (Hm s). now rewrite E.
Qed.

Lemma except_oserror_env {A} (m h : M A) :
  env_errors_only m -> env_errors_only h -> env_errors_only (except_oserror m h).
Proof.
  intros Hm Hh s e H. unfold except_oserror in H.
  destruct (m s) as [s1 [a | [ | | o d w]]] eqn:E.
  - discriminate H.
  - exact (Hh s1 e H).
  - cbn in H. injection H as <-. now right.
  - exfalso. destruct (Hm s (NotDuplicate o d w)) as [C|C]; [now rewrite E | discriminate C..].
Qed.

Create HintDb env_db.
#[global] Hint Resolve ret_env raise_oserror_env raise_ioerror_env emit_env get_fs_env
  : env_db.

Ltac env_step :=
  first
    [ apply ret_env | apply raise_oserror_env | apply raise_ioerror_env | apply emit_env
    | apply get_fs_env
    | apply bind_env; [ | intro ]
    | apply except_oserror_env
    | match goal with
      | |- env_errors_only (match ?x with _ => _ end) => destruct x
      end ].

Ltac env_auto := repeat (solve [eauto with env_db] || env_step).

Lemma os_stat_env p : env_errors_only (os_stat p).
Proof. unfold os_stat. env_auto. Qed.
#[global] Hint Resolve os_stat_env : env_db.

Lemma getsize_env p : env_errors_only (getsize p).
Proof. unfold getsize. env_auto. Qed.
#[global] Hint Resolve getsize_env : env_db.

Lemma open_rb_env p : env_errors_only (open_rb p).
Proof. unfold open_rb. env_auto. Qed.

Lemma file_read_env h n : env_errors_only (file_read h n).
Proof. unfold file_read. env_auto. Qed.

Lemma same_file_or_dir_env p1 p2 : env_errors_only (same_file_or_dir p1 p2).
Proof. unfold same_file_or_dir. env_auto. Qed.

Lemma same_size_env p1 p2 : env_errors_only (same_size p1 p2).
Proof. unfold same_size. env_auto. Qed.
#[global] Hint Resolve open_rb_env file_read_env same_file_or_dir_env same_size_env : env_db.

Lemma compare_blocks_env fuel n f1 f2 :
  env_errors_only (compare_blocks fuel (fun h => file_read h n) f1 f2).
Proof.
  revert f1 f2. induction fuel as [|fuel IH]; intros f1 f2; cbn [compare_blocks]; env_auto.
Qed.
#[global] Hint Resolve compare_blocks_env : env_db.

Lemma same_content_env p1 p2 : env_errors_only (same_content p1 p2).
Proof. unfold same_content, same_content_with. env_auto. Qed.
#[global] Hint Resolve same_content_env : env_db.

Lemma not_duplicate_file_reason_env p1 p2 : env_errors_only (not_duplicate_file_reason p1 p2).
Proof. unfold not_duplicate_file_reason. env_auto. Qed.

Lemma listdir_node_env d n : env_errors_only (listdir_node d n).
Proof. unfold listdir_node. env_auto. Qed.
#[global] Hint Resolve listdir_node_env : env_db.

Lemma files_in_node_env : forall n directory t,
  env_errors_only (_files_in_node directory n t).
Proof.
  induction n as [i d m r data | i d m r es IHes] using node_ind'; intros directory t;
    cbn [_files_in_node].
  - env_auto.
  - apply bind_env; [apply listdir_node_env | intros _].
    induction IHes as [| [name c] rest IHc IHrest IHgo]; cbn [fst snd] in *.
    + apply ret_env.
    + destruct (_ && _).
      * exact IHgo.
      * destruct c as [? ? ? ? ? | ? ? ? ? ?].
        -- apply bind_env; [exact IHgo | intro]. apply ret_env.
        -- apply bind_env; [apply IHc | intro].
           apply bind_env; [exact IHgo | intro]. apply ret_env.
Qed.
#[global] Hint Resolve files_in_node_env : env_db.

Lemma files_in_env d ps : env_errors_only (files_in d ps).
Proof. unfold files_in, _files_in. env_auto. Qed.
#[global] Hint Resolve files_in_env : env_db.

Lemma first_size_mismatch_env d c files : env_errors_only (first_size_mismatch d c files).
Proof. induction files; cbn [first_size_mismatch]; env_auto. Qed.

Lemma first_content_mismatch_env d c files : env_errors_only (first_content_mismatch d c files).
Proof. induction files; cbn [first_content_mismatch]; env_auto. Qed.
#[global] Hint Resolve first_size_mismatch_env first_content_mismatch_env : env_db.

Lemma not_duplicate_dir_reason_env d c ign : env_errors_only (not_duplicate_dir_reason d c ign).
Proof. unfold not_duplicate_dir_reason. env_auto. Qed.

Lemma judge_for_env orig dup ign n : env_errors_only (judge_for orig dup ign n).
Proof. destruct n; cbn [judge_for]; [apply not_duplicate_file_reason_env | apply not_duplicate_dir_reason_env]. Qed.

Lemma duplicate_processor_run dry p s :
  duplicate_processor dry p s
  = if dry then (mk_state (fs s) (trace s ++ [EvPrint (MsgWouldRemove p)]), Ok tt)
    else remove_file_or_dir p s.
Proof. destruct dry; reflexivity. Qed.

(** *** The script's entry point *)

(** X16.  When the script reports that the candidate is not a duplicate
    (the caught [NotDuplicate]), the report names the command line's
    [main] and [duplicate], in this order. *)
Theorem main_reports_arguments orig dup ign dry s s' o d r :
  main orig dup ign dry s = (s', Reported o d r) -> o = orig /\ d = dup.
Proof.
  unfold main. rewrite process_duplicate_run.
  destruct (lookup dup (fs s)) as [n|].
  - cbv zeta.
    destruct (snd (judge_for orig dup ign n (mk_state (fs s) []))) as [[r0|]|e] eqn:Ej.
    + intros H. injection H as _ <- <- _. now split.
    + rewrite duplicate_processor_run. destruct dry.
      * discriminate.
      * rewrite remove_file_or_dir_run. destruct (unlink dup _); discriminate.
    + destruct (judge_for_env orig dup ign n _ e Ej) as [-> | ->]; discriminate.
  - intros H. injection H as _ <- <- _. now split.
Qed.


(** *** Instances of the properties above *)

Lemma same_content_compares_bytes_witness :
  lookup ["1"%string] fs_dup_files = Some (File 2 1 0 true (list_byte_of_string "asd")) /\
  lookup ["2"%string] fs_dup_files = Some (File 3 1 0 true (list_byte_of_string "asd")) /\
  snd (same_content ["1"%string] ["2"%string] (at_root fs_dup_files)) = Ok true.
Proof.
  assert (H1 : lookup ["1"%string] (fs (at_root fs_dup_files))
               = Some (File 2 1 0 true (list_byte_of_string "asd"))) by reflexivity.
  assert (H2 : lookup ["2"%string] (fs (at_root fs_dup_files))
               = Some (File 3 1 0 true (list_byte_of_string "asd"))) by reflexivity.
  split; [exact H1|]. split; [exact H2|].
  apply (proj2 (proj1 (same_content_compares_bytes ["1"%string] ["2"%string]
                         (at_root fs_dup_files) 2 1 0 _ 3 1 0 _ H1 H2))).
  reflexivity.
Defined.

Lemma skip_tree_last_path_wins_witness :
  split_on os_path_sep "a/b" = [] ++ "a"%string :: ["b"%string] /\
  exists t', tree_walk [] (_make_skip_path_tree ([] ++ ["a/b"%string])) = Some t' /\
             tree_has t' "a" = true /\ tree_len t' <> 0%nat.
Proof.
  split; [vm_compute; reflexivity|].
  pose proof (skip_tree_last_path_wins [] "a/b") as H. cbv zeta in H.
  destruct H as (_ & _ & _ & _ & H5).
  apply (H5 [] "a"%string ["b"%string]). vm_compute. reflexivity.
Defined.

Lemma files_in_lists_regular_files_witness :
  names_unique fs_skip_unreadable = true /\
  snd (files_in ["candidate_dir"%string] ["locked"%string] (at_root fs_skip_unreadable))
  = Ok [["f"%string]] /\
  (In ["f"%string] [["f"%string]] <->
   (["f"%string] <> [] /\
    skipped_by (_make_skip_path_tree ["locked"%string]) ["f"%string] = false /\
    is_regular_file (lookup (["candidate_dir"%string] ++ ["f"%string]) fs_skip_unreadable)
    = true)).
Proof.
  assert (Hu : names_unique (fs (at_root fs_skip_unreadable)) = true) by (vm_compute; reflexivity).
  assert (Hr : snd (files_in ["candidate_dir"%string] ["locked"%string]
                      (at_root fs_skip_unreadable)) = Ok [["f"%string]])
    by (vm_compute; reflexivity).
  split; [exact Hu|]. split; [exact Hr|].
  exact (files_in_lists_regular_files ["candidate_dir"%string] ["locked"%string]
           (at_root fs_skip_unreadable) [["f"%string]] Hu Hr ["f"%string]).
Defined.

Lemma files_in_errors_witness :
  skipped_by (_make_skip_path_tree []) ["locked"%string] = false /\
  lookup (["candidate_dir"%string] ++ ["locked"%string]) fs_skip_unreadable
  = Some (Dir 6 1 0 false []) /\
  snd (files_in ["candidate_dir"%string] [] (at_root fs_skip_unreadable)) = Raise OSError.
Proof.
  assert (Hs : skipped_by (_make_skip_path_tree []) ["locked"%string] = false)
    by (vm_compute; reflexivity).
  assert (Hl : lookup (["candidate_dir"%string] ++ ["locked"%string])
                 (fs (at_root fs_skip_unreadable)) = Some (Dir 6 1 0 false []))
    by (vm_compute; reflexivity).
  split; [exact Hs|]. split; [exact Hl|].
  exact (proj2 (proj2 (files_in_errors ["candidate_dir"%string] [] (at_root fs_skip_unreadable)))
           ["locked"%string] 6%Z 1%Z 0%Z [] Hs Hl).
Defined.

Lemma not_duplicate_dir_reason_sound_witness :
  names_unique fs_dup_dirs = true /\
  snd (not_duplicate_dir_reason ["directory"%string] ["candidate_dir"%string] []
         (at_root fs_dup_dirs)) = Ok None /\
  exists i1 dv1 m1 i2 dv2 m2 data,
    lookup (["directory"%string] ++ ["f"%string]) fs_dup_dirs
    = Some (File i1 dv1 m1 true data) /\
    lookup (["candidate_dir"%string] ++ ["f"%string]) fs_dup_dirs
    = Some (File i2 dv2 m2 true data).
Proof.
  assert (Hu : names_unique (fs (at_root fs_dup_dirs)) = true) by (vm_compute; reflexivity).
  assert (Hj : snd (not_duplicate_dir_reason ["directory"%string] ["candidate_dir"%string] []
                      (at_root fs_dup_dirs)) = Ok None) by (vm_compute; reflexivity).
  split; [exact Hu|]. split; [exact Hj|].
  apply (not_duplicate_dir_reason_sound ["directory"%string] ["candidate_dir"%string] []
           (at_root fs_dup_dirs) Hu Hj ["f"%string]); vm_compute; [discriminate | reflexivity..].
Defined.

Lemma not_duplicate_file_reason_sound_witness :
  snd (not_duplicate_file_reason ["1"%string] ["2"%string] (at_root fs_dup_files)) = Ok None /\
  exists i1 dv1 m1 i2 dv2 m2 data,
    lookup ["1"%string] fs_dup_files = Some (File i1 dv1 m1 true data) /\
    lookup ["2"%string] fs_dup_files = Some (File i2 dv2 m2 true data) /\
    stat_eqb (stat_of (File i1 dv1 m1 true data)) (stat_of (File i2 dv2 m2 true data)) = false.
Proof.
  assert (Hj : snd (not_duplicate_file_reason ["1"%string] ["2"%string] (at_root fs_dup_files))
               = Ok None) by (vm_compute; reflexivity).
  split; [exact Hj|].
  exact (not_duplicate_file_reason_sound ["1"%string] ["2"%string] (at_root fs_dup_files) Hj).
Defined.


Lemma dry_run_changes_nothing_witness :
  snd (process_duplicate ["1"%string] ["2"%string] [] print_duplicate (at_root fs_dup_files))
  = Ok tt /\
  exists tr, trace (fst (process_duplicate ["1"%string] ["2"%string] [] print_duplicate
                          (at_root fs_dup_files)))
             = tr ++ [EvPrint (MsgWouldRemove ["2"%string])].
Proof.
  assert (H : snd (process_duplicate ["1"%string] ["2"%string] [] print_duplicate
                     (at_root fs_dup_files)) = Ok tt) by (vm_compute; reflexivity).
  split; [exact H|].
  exact (proj2 (dry_run_changes_nothing ["1"%string] ["2"%string] [] (at_root fs_dup_files)) H).
Defined.

Lemma process_duplicate_calls_process_witness :
  lookup ["2"%string] fs_dup_files = Some (file_of 3 "asd") /\
  snd (judge_for ["1"%string] ["2"%string] [] (file_of 3 "asd") (at_root fs_dup_files)) = Ok None /\
  exists tr, forall process,
    process_duplicate ["1"%string] ["2"%string] [] process (at_root fs_dup_files)
    = process ["2"%string] (mk_state fs_dup_files tr).
Proof.
  assert (Hl : lookup ["2"%string] (fs (at_root fs_dup_files)) = Some (file_of 3 "asd"))
    by reflexivity.
  assert (Hj : snd (judge_for ["1"%string] ["2"%string] [] (file_of 3 "asd")
                      (at_root fs_dup_files)) = Ok None) by (vm_compute; reflexivity).
  split; [exact Hl|]. split; [exact Hj|].
  exact (process_duplicate_calls_process ["1"%string] ["2"%string] [] (at_root fs_dup_files)
           (file_of 3 "asd") Hl Hj).
Defined.

Lemma process_duplicate_remove_safe_witness :
  names_unique fs_dup_files = true /\
  process_duplicate ["1"%string] ["2"%string] [] remove_file_or_dir (at_root fs_dup_files)
  = (fst (process_duplicate ["1"%string] ["2"%string] [] remove_file_or_dir
            (at_root fs_dup_files)), Ok tt) /\
  lookup ["2"%string] (fs (fst (process_duplicate ["1"%string] ["2"%string] []
                                  remove_file_or_dir (at_root fs_dup_files)))) = None.
Proof.
  assert (Hu : names_unique (fs (at_root fs_dup_files)) = true) by (vm_compute; reflexivity).
  assert (Hr : process_duplicate ["1"%string] ["2"%string] [] remove_file_or_dir
                 (at_root fs_dup_files)
               = (fst (process_duplicate ["1"%string] ["2"%string] [] remove_file_or_dir
                         (at_root fs_dup_files)), Ok tt)) by (vm_compute; reflexivity).
  split; [exact Hu|]. split; [exact Hr|].
  exact (proj1 (process_duplicate_remove_safe ["1"%string] ["2"%string] [] (at_root fs_dup_files)
                  _ Hu Hr)).
Defined.

Lemma process_duplicate_removes_original_inside_witness :
  path_prefix ["c"%string] ["c"%string; "x"%string] = true /\
  process_duplicate ["c"%string; "x"%string] ["c"%string] [] remove_file_or_dir
    (at_root fs_orig_inside)
  = (fst (process_duplicate ["c"%string; "x"%string] ["c"%string] [] remove_file_or_dir
            (at_root fs_orig_inside)), Ok tt) /\
  lookup ["c"%string; "x"%string]
    (fs (fst (process_duplicate ["c"%string; "x"%string] ["c"%string] [] remove_file_or_dir
                (at_root fs_orig_inside)))) = None.
Proof.
  assert (Hp : path_prefix ["c"%string] ["c"%string; "x"%string] = true) by reflexivity.
  assert (Hr : process_duplicate ["c"%string; "x"%string] ["c"%string] [] remove_file_or_dir
                 (at_root fs_orig_inside)
               = (fst (process_duplicate ["c"%string; "x"%string] ["c"%string] []
                         remove_file_or_dir (at_root fs_orig_inside)), Ok tt))
    by (vm_compute; reflexivity).
  split; [exact Hp|]. split; [exact Hr|].
  exact (process_duplicate_removes_original_inside ["c"%string; "x"%string] ["c"%string] []
           (at_root fs_orig_inside) _ Hp Hr).
Defined.

Lemma process_duplicate_missing_original_witness :
  lookup ["zz"%string] fs_dup_files = None /\
  lookup ["1"%string] fs_dup_files = Some (File 2 1 0 true (list_byte_of_string "asd")) /\
  snd (process_duplicate ["zz"%string] ["1"%string] [] remove_file_or_dir (at_root fs_dup_files))
  = Raise (NotDuplicate ["zz"%string] ["1"%string] (RFilesDiffer ["zz"%string] ["1"%string])).
Proof.
  assert (Ho : lookup ["zz"%string] (fs (at_root fs_dup_files)) = None) by reflexivity.
  assert (Hd : lookup ["1"%string] (fs (at_root fs_dup_files))
               = Some (File 2 1 0 true (list_byte_of_string "asd"))) by reflexivity.
  split; [exact Ho|]. split; [exact Hd|].
  exact (proj2 (process_duplicate_missing_original ["zz"%string] ["1"%string] []
                  remove_file_or_dir (at_root fs_dup_files) Ho) 2%Z 1%Z 0%Z true _ Hd).
Defined.

Lemma extra_files_reason_witness :
  snd (not_duplicate_dir_reason ["directory"%string] ["candidate_dir"%string] []
         (at_root fs_extra_below_d))
  = Ok (Some (RExtraFiles [["d"%string; "extra"%string]; ["d"%string; "x"%string]])) /\
  NoDup [["d"%string; "extra"%string]; ["d"%string; "x"%string]].
Proof.
  assert (H : snd (not_duplicate_dir_reason ["directory"%string] ["candidate_dir"%string] []
                     (at_root fs_extra_below_d))
              = Ok (Some (RExtraFiles [["d"%string; "extra"%string]; ["d"%string; "x"%string]])))
    by (vm_compute; reflexivity).
  split; [exact H|].
  exact (proj1 (proj2 (extra_files_reason _ _ _ _ _ H))).
Defined.

Lemma same_content_read_rounds_witness :
  lookup ["1"%string] fs_dup_files = Some (File 2 1 0 true (list_byte_of_string "asd")) /\
  lookup ["2"%string] fs_dup_files = Some (File 3 1 0 true (list_byte_of_string "asd")) /\
  exists k, (Z.of_nat 3 <= Z.of_nat k * 2)%Z /\
    same_content_with (fun h => file_read h 2) ["1"%string] ["2"%string] (at_root fs_dup_files)
    = (mk_state fs_dup_files
         ([EvStat ["1"%string]; EvStat ["2"%string]; EvOpen ["1"%string]; EvOpen ["2"%string]]
          ++ List.concat (List.repeat [EvRead ["1"%string]; EvRead ["2"%string]] (S k))),
       Ok true).
Proof.
  assert (H1 : lookup ["1"%string] (fs (at_root fs_dup_files))
               = Some (File 2 1 0 true (list_byte_of_string "asd"))) by reflexivity.
  assert (H2 : lookup ["2"%string] (fs (at_root fs_dup_files))
               = Some (File 3 1 0 true (list_byte_of_string "asd"))) by reflexivity.
  split; [exact H1|]. split; [exact H2|].
  destruct (same_content_read_rounds ["1"%string] ["2"%string] (at_root fs_dup_files) 2
              2 1 0 3 1 0 _ ltac:(lia) H1 H2) as (k & Hk & _ & Hrun).
  exists k. split; [exact Hk | exact Hrun].
Defined.

Lemma main_reports_arguments_witness :
  main ["orig"%string] ["dup"%string] [] false (at_root fs_missing_candidate)
  = (fst (main ["orig"%string] ["dup"%string] [] false (at_root fs_missing_candidate)),
     Reported ["orig"%string] ["dup"%string] (RNotExist ["dup"%string])) /\
  ["orig"%string] = ["orig"%string] /\ ["dup"%string] = ["dup"%string].
Proof.
  assert (H : main ["orig"%string] ["dup"%string] [] false (at_root fs_missing_candidate)
              = (fst (main ["orig"%string] ["dup"%string] [] false (at_root fs_missing_candidate)),
                 Reported ["orig"%string] ["dup"%string] (RNotExist ["dup"%string])))
    by (vm_compute; reflexivity).
  split; [exact H|].
  exact (main_reports_arguments _ _ _ _ _ _ _ _ _ H).
Defined.

